(** * Notifico: the Bitbucket hook

    A shallow embedding of [notifico/services/hooks/bitbucket.py]:
    the payload normaliser [simplify_payload], the two line builders
    [_make_summary_line] and [_make_commit_line], and the generator
    [BitbucketHook.handle_request].

    Python values that reach the hook come out of [json.loads], so the
    value type is the JSON tree.  Python's [None] is [JNull].  Numbers
    are integers: floating-point literals are outside the model.
    Strings are the unicode strings of Python 2 restricted to the
    characters below U+0100, one character per [ascii]; case mapping
    and white space are unicode's on that range. *)

From Stdlib Require Import List String Ascii ZArith Bool Arith Lia.
From Stdlib Require Import DecimalString.
Import ListNotations.
Local Open Scope string_scope.
Set Warnings "-register-all".

(** ** Values *)

Inductive json : Type :=
| JNull
| JBool (b : bool)
| JNum (n : Z)
| JStr (s : string)
| JArr (l : list json)
| JObj (d : list (string * json)).

(** The exceptions the hook can run into. *)
Inductive Exn : Type :=
| KeyError
| TypeError
| AttributeError
| ValueError
| IndexError.

(** A computation that returns or raises. *)
Inductive Res (A : Type) : Type :=
| Ok (a : A)
| Raise (e : Exn).
Arguments Ok {A} a.
Arguments Raise {A} e.

Definition res_bind {A B} (m : Res A) (f : A -> Res B) : Res B :=
  match m with
  | Ok a => f a
  | Raise e => Raise e
  end.

Declare Scope res_scope.
Delimit Scope res_scope with res.
Notation "x <- m ;; k" := (res_bind m (fun x => k))
  (at level 61, m at next level, right associativity) : res_scope.

(** ** Python primitives on values *)

Module Py.

(** [bool(v)]. *)
Definition truthy (v : json) : bool :=
  match v with
  | JNull => false
  | JBool b => b
  | JNum n => negb (Z.eqb n 0)
  | JStr s => negb (String.eqb s "")
  | JArr l => match l with [] => false | _ => true end
  | JObj d => match d with [] => false | _ => true end
  end.

(** A dict is an association list; a key is looked up from the front. *)
Fixpoint dict_get (d : list (string * json)) (k : string) : option json :=
  match d with
  | [] => None
  | (k', v) :: d' => if String.eqb k k' then Some v else dict_get d' k
  end.

(** [obj.get(k, default)]: only a dict has the method. *)
Definition get (obj : json) (k : string) (default : json) : Res json :=
  match obj with
  | JObj d => Ok (match dict_get d k with Some v => v | None => default end)
  | _ => Raise AttributeError
  end.

(** [obj[k]] for a string [k]: a missing key of a dict is a [KeyError];
    a string, a list and every other value refuse a string index. *)
Definition getitem (obj : json) (k : string) : Res json :=
  match obj with
  | JObj d => match dict_get d k with Some v => Ok v | None => Raise KeyError end
  | _ => Raise TypeError
  end.

(** [iter(v)]: a list gives its elements, a string its characters, a
    dict its keys; nothing else is iterable. *)
Definition iter (v : json) : Res (list json) :=
  match v with
  | JArr l => Ok l
  | JStr s => Ok (map (fun c => JStr (String c "")) (list_ascii_of_string s))
  | JObj d => Ok (map (fun kv => JStr (fst kv)) d)
  | _ => Raise TypeError
  end.

(** [len(v)]. *)
Definition len (v : json) : Res nat :=
  match v with
  | JArr l => Ok (List.length l)
  | JStr s => Ok (String.length s)
  | JObj d => Ok (List.length d)
  | _ => Raise TypeError
  end.

(** [v[-1]]. *)
Definition last_item (v : json) : Res json :=
  match v with
  | JArr l => match rev l with x :: _ => Ok x | [] => Raise IndexError end
  | JStr s => match rev (list_ascii_of_string s) with
              | c :: _ => Ok (JStr (String c ""))
              | [] => Raise IndexError
              end
  | JObj _ => Raise KeyError
  | _ => Raise TypeError
  end.

(** [v[:n]]. *)
Definition slice_to (n : nat) (v : json) : Res json :=
  match v with
  | JStr s => Ok (JStr (substring 0 n s))
  | JArr l => Ok (JArr (firstn n l))
  | _ => Raise TypeError
  end.

(** Lists and dicts cannot be hashed. *)
Definition hashable (v : json) : bool :=
  match v with
  | JArr _ | JObj _ => false
  | _ => true
  end.

(** [a == b] on hashable values; [True == 1] and [False == 0]. *)
Definition as_int (v : json) : option Z :=
  match v with
  | JBool true => Some 1%Z
  | JBool false => Some 0%Z
  | JNum n => Some n
  | _ => None
  end.

Definition eqb (a b : json) : bool :=
  match a, b with
  | JNull, JNull => true
  | JStr s, JStr t => String.eqb s t
  | _, _ => match as_int a, as_int b with
            | Some m, Some n => Z.eqb m n
            | _, _ => false
            end
  end.

(** A set holds each value once; the model keeps insertion order, of
    which the hook only observes the size and the members. *)
Definition pyset := list json.

Definition set_mem (x : json) (s : pyset) : bool := existsb (eqb x) s.

(** [s.add(x)]. *)
Definition set_add (x : json) (s : pyset) : Res pyset :=
  if hashable x then Ok (if set_mem x s then s else (s ++ [x])%list)
  else Raise TypeError.

(** [unicode.lower()]: below U+0100 the upper-case letters are A to Z
    and U+00C0 to U+00DE without the multiplication sign U+00D7, each 32
    below its lower-case letter. *)
Definition lower_char (c : ascii) : ascii :=
  let n := nat_of_ascii c in
  if ((65 <=? n)%nat && (n <=? 90)%nat)
     || ((192 <=? n)%nat && (n <=? 222)%nat && negb (n =? 215)%nat)
  then ascii_of_nat (n + 32) else c.

Fixpoint lower (s : string) : string :=
  match s with
  | EmptyString => EmptyString
  | String c s' => String (lower_char c) (lower s')
  end.

(** White space of [unicode.strip()] below U+0100: tab to carriage
    return, the four separators U+001C to U+001F, space, next line
    U+0085 and no-break space U+00A0. *)
Definition is_space (c : ascii) : bool :=
  let n := nat_of_ascii c in
  ((9 <=? n)%nat && (n <=? 13)%nat) || ((28 <=? n)%nat && (n <=? 32)%nat)
  || (n =? 133)%nat || (n =? 160)%nat.

Fixpoint lstrip (s : string) : string :=
  match s with
  | EmptyString => EmptyString
  | String c s' => if is_space c then lstrip s' else s
  end.

Fixpoint rstrip (s : string) : string :=
  match s with
  | EmptyString => EmptyString
  | String c s' =>
      match rstrip s' with
      | EmptyString => if is_space c then EmptyString else String c EmptyString
      | r => String c r
      end
  end.

Definition strip (s : string) : string := rstrip (lstrip s).

(** [s.split(sep)] for a one-character separator. *)
Fixpoint split (sep : ascii) (s : string) : list string :=
  match s with
  | EmptyString => [EmptyString]
  | String c s' =>
      if Ascii.eqb c sep then EmptyString :: split sep s'
      else match split sep s' with
           | w :: ws => String c w :: ws
           | [] => [String c EmptyString]
           end
  end.

(** [sep.join(items)]. *)
Fixpoint join (sep : string) (items : list string) : string :=
  match items with
  | [] => ""
  | [x] => x
  | x :: rest => x ++ sep ++ join sep rest
  end.

(** Decimal text of a size or a number. *)
Definition text_of_nat (n : nat) : string :=
  NilZero.string_of_uint (Nat.to_uint n).

Definition text_of_Z (n : Z) : string :=
  NilZero.string_of_int (Z.to_int n).

End Py.

(** ** The normalised event *)

Record Files : Type := mkFiles {
  f_all : Py.pyset;
  f_added : Py.pyset;
  f_removed : Py.pyset;
  f_modified : Py.pyset
}.

Record Normalized : Type := mkNormalized {
  branch : json;
  tag : json;
  pusher : json;
  files : Files;
  original : json
}.

Local Open Scope res_scope.

(** [result['files'][type_].add(name)]: the subscript hashes [type_] and
    looks it up among the four keys of the dict, then [add] hashes
    [name]. *)
Definition files_add (fs : Files) (type_ name : json) : Res Files :=
  match type_ with
  | JArr _ | JObj _ => Raise TypeError
  | JStr t =>
      if String.eqb t "all" then
        s <- Py.set_add name (f_all fs) ;;
        Ok (mkFiles s (f_added fs) (f_removed fs) (f_modified fs))
      else if String.eqb t "added" then
        s <- Py.set_add name (f_added fs) ;;
        Ok (mkFiles (f_all fs) s (f_removed fs) (f_modified fs))
      else if String.eqb t "removed" then
        s <- Py.set_add name (f_removed fs) ;;
        Ok (mkFiles (f_all fs) (f_added fs) s (f_modified fs))
      else if String.eqb t "modified" then
        s <- Py.set_add name (f_modified fs) ;;
        Ok (mkFiles (f_all fs) (f_added fs) (f_removed fs) s)
      else Raise KeyError
  | _ => Raise KeyError
  end.

(** The body of the inner loop (lines 56-58). *)
Definition record_file (fs : Files) (file_ : json) : Res Files :=
  type_ <- Py.getitem file_ "type" ;;
  name <- Py.getitem file_ "file" ;;
  fs1 <- files_add fs type_ name ;;
  files_add fs1 (JStr "all") name.

Fixpoint record_files (fs : Files) (entries : list json) : Res Files :=
  match entries with
  | [] => Ok fs
  | file_ :: rest =>
      fs' <- record_file fs file_ ;;
      record_files fs' rest
  end.

(** The body of the outer loop (lines 55-64), on the two pieces of
    [result] it updates. *)
Definition record_commit (acc : Files * json) (commit : json)
  : Res (Files * json) :=
  fl <- Py.get commit "files" (JArr []) ;;
  entries <- Py.iter fl ;;
  fs' <- record_files (fst acc) entries ;;
  b <- Py.get commit "branch" JNull ;;
  Ok (fs', if Py.truthy b then b else snd acc).

Fixpoint record_commits (acc : Files * json) (commits : list json)
  : Res (Files * json) :=
  match commits with
  | [] => Ok acc
  | commit :: rest =>
      acc' <- record_commit acc commit ;;
      record_commits acc' rest
  end.

Definition empty_files : Files := mkFiles [] [] [] [].

Definition simplify_payload (payload : json) : Res Normalized :=
  cv <- Py.get payload "commits" (JArr []) ;;
  commits <- Py.iter cv ;;
  acc <- record_commits (empty_files, JNull) commits ;;
  user <- Py.get payload "user" JNull ;;
  Ok (mkNormalized (snd acc) JNull user (fst acc) payload).

(** ** Effects of the hook

    The generator yields lines and, through the summary line, calls the
    link shortener.  A run is the list of these events in order,
    together with how it ended. *)

(** Modelled from the spec: [HookService.message], defined outside the
    files under verification.  A notification line is one string with a
    [strip] flag that says whether the colour codes are to be removed
    before transport. *)
Record Line : Type := message {
  text : string;
  strip : bool
}.

Inductive Event : Type :=
| Yield (l : Line)
| Shorten (url : string).

Definition Eff (A : Type) : Type := (list Event * Res A)%type.

Definition eff_ret {A} (a : A) : Eff A := ([], Ok a).

Definition eff_bind {A B} (m : Eff A) (f : A -> Eff B) : Eff B :=
  match m with
  | (t, Ok a) => let (t', r) := f a in ((t ++ t')%list, r)
  | (t, Raise e) => (t, Raise e)
  end.

Definition lift {A} (r : Res A) : Eff A := ([], r).

Definition yield (l : Line) : Eff unit := ([Yield l], Ok tt).

Declare Scope eff_scope.
Delimit Scope eff_scope with eff.
Notation "x <- m ;; k" := (eff_bind m (fun x => k))
  (at level 61, m at next level, right associativity) : eff_scope.
Notation "m ;; k" := (eff_bind m (fun _ => k))
  (at level 61, right associativity) : eff_scope.

(** The lines a run has yielded, and the URLs it has sent to the
    shortener. *)
Definition lines_of (t : list Event) : list Line :=
  flat_map (fun ev => match ev with Yield l => [l] | Shorten _ => [] end) t.

Definition shortened (t : list Event) : list string :=
  flat_map (fun ev => match ev with Shorten u => [u] | Yield _ => [] end) t.

(** ** Hook configuration

    The keys of [BitbucketConfigForm]; [None] is a key the stored dict
    does not have. *)
Record Config : Type := mkConfig {
  branches : option string;
  use_colors : option bool;
  show_branch : option bool;
  show_raw_author : option bool
}.

Definition empty_config : Config := mkConfig None None None None.

Record Hook : Type := mkHook {
  config : option Config
}.

(** [hook.config or {}]. *)
Definition config_or_empty (hook : Hook) : Config :=
  match config hook with
  | Some c => c
  | None => empty_config
  end.

(** [config.get(key, default)]. *)
Definition get_default {A} (o : option A) (default : A) : A :=
  match o with
  | Some a => a
  | None => default
  end.

(** The entries of [HookService.colors] that the hook interpolates. *)
Record Colors : Type := mkColors {
  GREY : string;
  BLUE : string;
  TEAL : string;
  LIGHT_GREY : string
}.

(** [line.append(x)]. *)
Definition append_item {A} (line : list A) (x : A) : list A :=
  (line ++ [x])%list.

(** U+00B1, the plus-minus sign. *)
Definition PLUS_MINUS : string := String (ascii_of_nat 177) EmptyString.

(** ** Rendering and dispatch *)

Section Hook.

(** What the hook takes from outside the repository's files under
    verification: the colour table [HookService.colors], the value
    [HookService.shorten] returns for a URL, the text [unicode()] gives
    for a list or a dict (it depends on the interpreter's dict order),
    and the decoder [json.loads]. *)
Variable colors : Colors.
Variable shorten_url : string -> string.
Variable container_text : json -> string.
Variable loads : string -> Res json.

(** What [u'{0}'.format(v)] puts in place of the field. *)
Definition format_value (v : json) : string :=
  match v with
  | JStr s => s
  | JNum n => Py.text_of_Z n
  | JBool true => "True"
  | JBool false => "False"
  | JNull => "None"
  | _ => container_text v
  end.

(** [BitbucketHook.shorten(link)]: the call is recorded. *)
Definition shorten (link : string) : Eff string :=
  ([Shorten link], Ok (shorten_url link)).

Local Open Scope eff_scope.

Definition _make_summary_line (hook : Hook) (j : Normalized) (config : Config)
  : Eff string :=
  let original := original j in
  let show_branch := get_default (show_branch config) true in
  (* Project name *)
  repository <- lift (Py.getitem original "repository") ;;
  name <- lift (Py.getitem repository "name") ;;
  let line :=
    [GREY colors ++ "[" ++ BLUE colors ++ format_value name
       ++ GREY colors ++ "]"] in
  let line :=
    if Py.truthy (pusher j)
    then append_item line
           (TEAL colors ++ format_value (pusher j) ++ GREY colors ++ " pushed")
    else line in
  (* Commit count *)
  commits <- lift (Py.getitem original "commits") ;;
  count <- lift (Py.len commits) ;;
  let line :=
    append_item line
      (TEAL colors ++ Py.text_of_nat count ++ GREY colors ++ " "
         ++ (if Nat.eqb count 1 then "commit" else "commits")) in
  let line :=
    if show_branch && Py.truthy (branch j)
    then append_item line
           ("to " ++ TEAL colors ++ format_value (branch j) ++ GREY colors)
    else line in
  (* File movement summary. *)
  let line :=
    append_item line
      ("[+" ++ Py.text_of_nat (List.length (f_added (files j)))
         ++ "/-" ++ Py.text_of_nat (List.length (f_removed (files j)))
         ++ "/" ++ PLUS_MINUS
         ++ Py.text_of_nat (List.length (f_modified (files j)))
         ++ "]") in
  (* The three arguments of the link's format call are evaluated, the
     template uses the first two. *)
  canon_url <- lift (Py.getitem original "canon_url") ;;
  repository <- lift (Py.getitem original "repository") ;;
  absolute_url <- lift (Py.getitem repository "absolute_url") ;;
  commits <- lift (Py.getitem original "commits") ;;
  last_commit <- lift (Py.last_item commits) ;;
  _ <- lift (Py.getitem last_commit "node") ;;
  let link :=
    format_value canon_url ++ format_value absolute_url ++ "commits/" in
  short <- shorten link ;;
  let line :=
    append_item line (LIGHT_GREY colors ++ short ++ GREY colors) in
  eff_ret (Py.join " " line).

(** [u' '.join] accepts strings only. *)
Definition as_join_item (v : json) : Res string :=
  match v with
  | JStr s => Ok s
  | _ => Raise TypeError
  end.

Definition _make_commit_line (hook : Hook) (j : Normalized) (commit : json)
  : Res string :=
  (let original := original j in
   let config := config_or_empty hook in
   let show_raw_author := get_default (show_raw_author config) false in
   repository <- Py.getitem original "repository" ;;
   name <- Py.getitem repository "name" ;;
   author <- Py.getitem commit
               (if show_raw_author then "raw_author" else "author") ;;
   node <- Py.getitem commit "node" ;;
   node7 <- Py.slice_to 7 node ;;
   msg <- Py.getitem commit "message" ;;
   msg_text <- as_join_item msg ;;
   Ok (Py.join " "
         [GREY colors ++ "[" ++ BLUE colors ++ format_value name
            ++ GREY colors ++ "]";
          TEAL colors ++ format_value author ++ GREY colors;
          TEAL colors ++ format_value node7 ++ GREY colors;
          "-";
          msg_text]))%res.

(** The branch names of [config.branches] (line 189). *)
Definition wanted_branches (bs : string) : list string :=
  map (fun b => Py.lower (Py.strip b)) (Py.split "," bs).

(** [j['branch'].lower()]: a method of strings. *)
Definition lower_method (v : json) : Res string :=
  match v with
  | JStr s => Ok (Py.lower s)
  | _ => Raise AttributeError
  end.

Definition in_list (s : string) (l : list string) : bool :=
  existsb (String.eqb s) l.

(** The loop of lines 195-196. *)
Fixpoint yield_commit_lines (hook : Hook) (j : Normalized) (strip : bool)
  (commits : list json) : Eff unit :=
  match commits with
  | [] => eff_ret tt
  | commit :: rest =>
      l <- lift (_make_commit_line hook j commit) ;;
      yield (message l strip) ;;
      yield_commit_lines hook j strip rest
  end.

(** Lines 194-196: the summary line, then a line for each commit. *)
Definition render_lines (hook : Hook) (j : Normalized) (config : Config)
  (strip : bool) : Eff unit :=
  summary <- _make_summary_line hook j config ;;
  yield (message summary strip) ;;
  cv <- lift (Py.getitem (original j) "commits") ;;
  commits <- lift (Py.iter cv) ;;
  yield_commit_lines hook j strip commits.

(** Lines 188-192: [true] when the event is not on a wanted branch. *)
Definition branch_unwanted (j : Normalized) (config : Config) : Res bool :=
  match branches config with
  | Some bs =>
      if negb (String.eqb bs "") then
        if Py.truthy (branch j) then
          (b <- lower_method (branch j) ;;
           Ok (negb (in_list b (wanted_branches bs))))%res
        else Ok false
      else Ok false
  | None => Ok false
  end.

(** [BitbucketHook.handle_request], consumed to its end.  [p] is
    [request.form.get('payload', None)]. *)
Definition handle_request (hook : Hook) (p : option string) : Eff unit :=
  match p with
  | None => eff_ret tt
  | Some body =>
      if String.eqb body "" then eff_ret tt else
      payload <- lift (loads body) ;;
      j <- lift (simplify_payload payload) ;;
      let original := original j in
      let config := config_or_empty hook in
      let strip := negb (get_default (use_colors config) true) in
      commits <- lift (Py.getitem original "commits") ;;
      if negb (Py.truthy commits) then eff_ret tt else
      drop <- lift (branch_unwanted j config) ;;
      if drop then eff_ret tt else
      render_lines hook j config strip
  end.

End Hook.

(** ** A JSON decoder

    [json.loads] is Python's; the hook is verified against any decoder.
    This one reads the documents the value type can hold (no
    floating-point literal, no character above U+00FF) and is used to
    run the hook on concrete request bodies.  What it cannot read it
    rejects, as [json.loads] rejects a malformed document, with a
    [ValueError]. *)

Module Json.

Definition dquote : ascii := ascii_of_nat 34.
Definition backslash : ascii := ascii_of_nat 92.

Definition is_ws (c : ascii) : bool :=
  let n := nat_of_ascii c in
  (n =? 32)%nat || (n =? 9)%nat || (n =? 10)%nat || (n =? 13)%nat.

Fixpoint skip_ws (s : list ascii) : list ascii :=
  match s with
  | c :: s' => if is_ws c then skip_ws s' else s
  | [] => []
  end.

Definition digit_of (c : ascii) : option Z :=
  let n := nat_of_ascii c in
  if (48 <=? n)%nat && (n <=? 57)%nat then Some (Z.of_nat (n - 48)) else None.

Fixpoint digits (acc : Z) (s : list ascii) : Z * list ascii :=
  match s with
  | c :: s' =>
      match digit_of c with
      | Some d => digits (10 * acc + d) s'
      | None => (acc, s)
      end
  | [] => (acc, [])
  end.

(** A fraction or an exponent would make the number a float. *)
Definition ends_integer (s : list ascii) : bool :=
  match s with
  | c :: _ => negb (Ascii.eqb c "." || Ascii.eqb c "e" || Ascii.eqb c "E")
  | [] => true
  end.

(** [0], or a non-zero digit followed by digits. *)
Definition natural (s : list ascii) : option (Z * list ascii) :=
  match s with
  | c :: s' =>
      match digit_of c with
      | Some 0%Z => if ends_integer s' then Some (0%Z, s') else None
      | Some d =>
          let (n, r) := digits d s' in
          if ends_integer r then Some (n, r) else None
      | None => None
      end
  | [] => None
  end.

Definition hex_of (c : ascii) : option nat :=
  let n := nat_of_ascii c in
  if (48 <=? n)%nat && (n <=? 57)%nat then Some (n - 48)%nat
  else if (65 <=? n)%nat && (n <=? 70)%nat then Some (n - 55)%nat
  else if (97 <=? n)%nat && (n <=? 102)%nat then Some (n - 87)%nat
  else None.

(** The characters of a string literal after its opening quote. *)
Fixpoint chars (s : list ascii) : option (string * list ascii) :=
  match s with
  | [] => None
  | c :: s' =>
      if Ascii.eqb c dquote then Some (EmptyString, s')
      else if Ascii.eqb c backslash then
        match s' with
        | e :: s'' =>
            let plain (x : ascii) :=
              match chars s'' with
              | Some (w, r) => Some (String x w, r)
              | None => None
              end in
            if Ascii.eqb e dquote then plain dquote
            else if Ascii.eqb e backslash then plain backslash
            else if Ascii.eqb e "/" then plain "/"%char
            else if Ascii.eqb e "b" then plain (ascii_of_nat 8)
            else if Ascii.eqb e "f" then plain (ascii_of_nat 12)
            else if Ascii.eqb e "n" then plain (ascii_of_nat 10)
            else if Ascii.eqb e "r" then plain (ascii_of_nat 13)
            else if Ascii.eqb e "t" then plain (ascii_of_nat 9)
            else if Ascii.eqb e "u" then
              match s'' with
              | "0"%char :: "0"%char :: h :: l :: s3 =>
                  match hex_of h, hex_of l, chars s3 with
                  | Some a, Some b, Some (w, r) =>
                      Some (String (ascii_of_nat (16 * a + b)) w, r)
                  | _, _, _ => None
                  end
              | _ => None
              end
            else None
        | [] => None
        end
      else if (nat_of_ascii c <? 32)%nat then None
      else
        match chars s' with
        | Some (w, r) => Some (String c w, r)
        | None => None
        end
  end.

(** A later member replaces an earlier one with the same key. *)
Fixpoint dict_set (d : list (string * json)) (k : string) (v : json)
  : list (string * json) :=
  match d with
  | [] => [(k, v)]
  | (k', v') :: d' =>
      if String.eqb k k' then (k, v) :: d' else (k', v') :: dict_set d' k v
  end.

Definition starts (w : string) (s : list ascii) : option (list ascii) :=
  let n := String.length w in
  if String.eqb (string_of_list_ascii (firstn n s)) w
  then Some (skipn n s) else None.

Fixpoint value (fuel : nat) (s : list ascii) : option (json * list ascii) :=
  match fuel with
  | O => None
  | S fuel' =>
      match skip_ws s with
      | [] => None
      | c :: s' =>
          if Ascii.eqb c "n" then
            option_map (fun r => (JNull, r)) (starts "ull" s')
          else if Ascii.eqb c "t" then
            option_map (fun r => (JBool true, r)) (starts "rue" s')
          else if Ascii.eqb c "f" then
            option_map (fun r => (JBool false, r)) (starts "alse" s')
          else if Ascii.eqb c dquote then
            option_map (fun wr => (JStr (fst wr), snd wr)) (chars s')
          else if Ascii.eqb c "-" then
            option_map (fun nr => (JNum (- fst nr), snd nr)) (natural s')
          else if Ascii.eqb c "[" then
            match skip_ws s' with
            | x :: r =>
                if Ascii.eqb x "]" then Some (JArr [], r)
                else option_map (fun lr => (JArr (fst lr), snd lr))
                       (elements fuel' (x :: r))
            | [] => None
            end
          else if Ascii.eqb c "{" then
            match skip_ws s' with
            | x :: r =>
                if Ascii.eqb x "}" then Some (JObj [], r)
                else option_map (fun dr => (JObj (fst dr), snd dr))
                       (members fuel' [] (x :: r))
            | [] => None
            end
          else option_map (fun nr => (JNum (fst nr), snd nr)) (natural (c :: s'))
      end
  end

with elements (fuel : nat) (s : list ascii)
  : option (list json * list ascii) :=
  match fuel with
  | O => None
  | S fuel' =>
      match value fuel' s with
      | Some (v, r) =>
          match skip_ws r with
          | x :: r' =>
              if Ascii.eqb x "]" then Some ([v], r')
              else if Ascii.eqb x "," then
                option_map (fun lr => (v :: fst lr, snd lr)) (elements fuel' r')
              else None
          | [] => None
          end
      | None => None
      end
  end

with members (fuel : nat) (acc : list (string * json)) (s : list ascii)
  : option (list (string * json) * list ascii) :=
  match fuel with
  | O => None
  | S fuel' =>
      match skip_ws s with
      | q :: s1 =>
          if Ascii.eqb q dquote then
            match chars s1 with
            | Some (k, s2) =>
                match skip_ws s2 with
                | colon :: s3 =>
                    if Ascii.eqb colon ":" then
                      match value fuel' s3 with
                      | Some (v, r) =>
                          match skip_ws r with
                          | x :: r' =>
                              if Ascii.eqb x "}"
                              then Some (dict_set acc k v, r')
                              else if Ascii.eqb x ","
                              then members fuel' (dict_set acc k v) r'
                              else None
                          | [] => None
                          end
                      | None => None
                      end
                    else None
                | [] => None
                end
            | None => None
            end
          else None
      | [] => None
      end
  end.

(** The whole text must be one value, white space apart. *)
Definition json_loads (body : string) : Res json :=
  let s := list_ascii_of_string body in
  match value (2 * List.length s + 2) s with
  | Some (v, r) =>
      match skip_ws r with
      | [] => Ok v
      | _ => Raise ValueError
      end
  | None => Raise ValueError
  end.

(** The text of a value, to write request bodies with; the strings are
    expected to be free of control characters. *)
Fixpoint escape (s : string) : string :=
  match s with
  | EmptyString => EmptyString
  | String c s' =>
      if Ascii.eqb c dquote || Ascii.eqb c backslash
      then String backslash (String c (escape s'))
      else String c (escape s')
  end.

Definition quoted (s : string) : string :=
  String dquote (escape s ++ String dquote EmptyString).

Fixpoint encode (v : json) : string :=
  match v with
  | JNull => "null"
  | JBool true => "true"
  | JBool false => "false"
  | JNum n => Py.text_of_Z n
  | JStr s => quoted s
  | JArr l =>
      "[" ++ Py.join ", " (map encode l) ++ "]"
  | JObj d =>
      "{" ++ Py.join ", "
               ((fix go (d : list (string * json)) : list string :=
                   match d with
                   | [] => []
                   | (k, x) :: d' => (quoted k ++ ": " ++ encode x) :: go d'
                   end) d)
          ++ "}"
  end.

End Json.

(** ** Shapes of payloads *)

(** The commits the normaliser walks over (line 52). *)
Definition commits_of (payload : json) : list json :=
  match Py.get payload "commits" (JArr []) with
  | Ok cv => match Py.iter cv with Ok cs => cs | Raise _ => [] end
  | Raise _ => []
  end.

(** The file entries one commit declares, as pairs of type and name, and
    those of a list of commits in payload order. *)
Definition entry_of (file_ : json) : list (json * json) :=
  match Py.getitem file_ "type", Py.getitem file_ "file" with
  | Ok t, Ok n => [(t, n)]
  | _, _ => []
  end.

Definition entries_of_commit (commit : json) : list (json * json) :=
  match Py.get commit "files" (JArr []) with
  | Ok fl => match Py.iter fl with
             | Ok es => flat_map entry_of es
             | Raise _ => []
             end
  | Raise _ => []
  end.

Definition entries_of (commits : list json) : list (json * json) :=
  flat_map entries_of_commit commits.

(** The names declared with type [t]. *)
Definition declared (t : string) (entries : list (json * json)) : list json :=
  map snd (filter (fun e => Py.eqb (fst e) (JStr t)) entries).

(** What a commit declares as its branch ([None] when nothing). *)
Definition branch_of (commit : json) : json :=
  match Py.get commit "branch" JNull with
  | Ok b => b
  | Raise _ => JNull
  end.

(** The last truthy value of a list, [JNull] when there is none. *)
Definition last_truthy (vs : list json) : json :=
  last (filter Py.truthy vs) JNull.

(** No two members of a set are equal. *)
Fixpoint distinct (s : Py.pyset) : bool :=
  match s with
  | [] => true
  | x :: r => negb (Py.set_mem x r) && distinct r
  end.

Definition has_key (d : list (string * json)) (k : string) : bool :=
  match Py.dict_get d k with Some _ => true | None => false end.

Definition typed_change (t : string) : bool :=
  String.eqb t "added" || String.eqb t "removed" || String.eqb t "modified".

(** A file entry with a type among added, removed and modified, and a
    name that can be a member of a set. *)
Definition file_ok (file_ : json) : bool :=
  match file_ with
  | JObj d =>
      match Py.dict_get d "type", Py.dict_get d "file" with
      | Some (JStr t), Some n => typed_change t && Py.hashable n
      | _, _ => false
      end
  | _ => false
  end.

(** The same without the condition on the name. *)
Definition file_keys_ok (file_ : json) : bool :=
  match file_ with
  | JObj d =>
      match Py.dict_get d "type", Py.dict_get d "file" with
      | Some (JStr t), Some _ => typed_change t
      | _, _ => false
      end
  | _ => false
  end.

Definition commit_files (ok : json -> bool) (commit : json) : bool :=
  match commit with
  | JObj d =>
      match Py.dict_get d "files" with
      | None => true
      | Some (JArr fs) => forallb ok fs
      | Some _ => false
      end
  | _ => false
  end.

(** A payload object whose commits, when present, are a list of objects,
    each with, when present, a list of file entries that satisfy [ok]. *)
Definition files_shape (ok : json -> bool) (payload : json) : bool :=
  match payload with
  | JObj d =>
      match Py.dict_get d "commits" with
      | None => true
      | Some (JArr cs) => forallb (commit_files ok) cs
      | Some _ => false
      end
  | _ => false
  end.

(** A commit with what its line is built from. *)
Definition commit_renderable (show_raw_author : bool) (commit : json) : bool :=
  commit_files file_ok commit &&
  match commit with
  | JObj d =>
      has_key d (if show_raw_author then "raw_author" else "author")
      && match Py.dict_get d "node" with
         | Some (JStr _) => true
         | _ => false
         end
      && match Py.dict_get d "message" with
         | Some (JStr _) => true
         | _ => false
         end
  | _ => false
  end.

(** A payload with every field the two line builders read. *)
Definition renderable (hook : Hook) (payload : json) : bool :=
  match payload with
  | JObj d =>
      match Py.dict_get d "commits" with
      | Some (JArr cs) =>
          forallb (commit_renderable
                     (get_default (show_raw_author (config_or_empty hook))
                        false)) cs
      | _ => false
      end
      && has_key d "canon_url"
      && match Py.dict_get d "repository" with
         | Some (JObj r) => has_key r "name" && has_key r "absolute_url"
         | _ => false
         end
  | _ => false
  end.

(** The file sets after the entries [es] have been recorded. *)
Definition files_inv (fs : Files) (es : list (json * json)) : Prop :=
  (forall x, Py.set_mem x (f_all fs) = Py.set_mem x (map snd es))
  /\ (forall x, Py.set_mem x (f_added fs) = Py.set_mem x (declared "added" es))
  /\ (forall x,
         Py.set_mem x (f_removed fs) = Py.set_mem x (declared "removed" es))
  /\ (forall x,
         Py.set_mem x (f_modified fs) = Py.set_mem x (declared "modified" es))
  /\ (distinct (f_all fs) = true /\ distinct (f_added fs) = true
      /\ distinct (f_removed fs) = true /\ distinct (f_modified fs) = true)
  /\ Forall (fun e => exists t, fst e = JStr t
                                /\ (String.eqb t "all" || typed_change t) = true)
       es.

(** Every line of a run satisfies [P]. *)
Definition all_lines {A} (P : Line -> Prop) (m : Eff A) : Prop :=
  Forall P (lines_of (fst m)).

(** [strip] as line 180 computes it. *)
Definition strip_of (hook : Hook) : bool :=
  negb (get_default (use_colors (config_or_empty hook)) true).

(** ** Sample data *)

Definition mirc : Colors :=
  mkColors (String (ascii_of_nat 3) "14") (String (ascii_of_nat 3) "02")
           (String (ascii_of_nat 3) "10") (String (ascii_of_nat 3) "15").

Definition file_entry (t n : string) : json :=
  JObj [("type", JStr t); ("file", JStr n)].

Definition sample_commit (b : string) (fs : list json) (node : string) : json :=
  JObj [("author", JStr "tk"); ("raw_author", JStr "Tyler <tk@tkte.ch>");
        ("node", JStr node); ("message", JStr "fix"); ("branch", JStr b);
        ("files", JArr fs)].

Definition sample_payload (commits : list json) : json :=
  JObj [("canon_url", JStr "https://bitbucket.org");
        ("repository", JObj [("name", JStr "notifico");
                             ("absolute_url", JStr "/tktech/notifico/")]);
        ("user", JStr "tk");
        ("commits", JArr commits)].

(** Three commits declaring the branches dev, nothing and main; the
    first two touch a.py twice and b.py once. *)
Definition three_commits : list json :=
  [sample_commit "dev" [file_entry "added" "a.py"] "0123456789ab";
   sample_commit "" [file_entry "modified" "a.py"; file_entry "removed" "b.py"]
     "123456789abc";
   sample_commit "main" [] "23456789abcd"].

Definition one_commit (b : string) : list json :=
  [sample_commit b [file_entry "added" "a.py"] "0123456789ab"].

(** A file entry of a type the normaliser has no set for. *)
Definition renamed_payload : json :=
  sample_payload
    [sample_commit "dev" [file_entry "renamed" "a.py"] "0123456789ab"].

(** A file entry whose name is a list. *)
Definition list_named_payload : json :=
  sample_payload
    [sample_commit "dev"
       [JObj [("type", JStr "added"); ("file", JArr [JStr "a.py"])]]
       "0123456789ab"].

(** A file entry typed with the key of the set of all files. *)
Definition all_typed_payload : json :=
  sample_payload
    [sample_commit "dev" [file_entry "all" "x.py"] "0123456789ab"].

(** A payload without the key commits. *)
Definition no_commits_payload : json := JObj [("user", JStr "tk")].

(** The normalised event of a payload the normaliser accepts. *)
Definition normalized_of (payload : json) : Normalized :=
  match simplify_payload payload with
  | Ok j => j
  | Raise _ => mkNormalized JNull JNull JNull empty_files payload
  end.

Definition plain_hook : Hook := mkHook None.

Definition filter_hook (bs : string) : Hook :=
  mkHook (Some (mkConfig (Some bs) None None None)).

Definition no_text : json -> string := fun _ => "".

Definition same_url : string -> string := fun u => u.

(** ** Payloads the normaliser accepts *)

(** A file entry the inner loop can record: a dict whose type is one of
    the four keys of [result['files']] and whose name can be hashed. *)
Definition entry_accepted (file_ : json) : bool :=
  match file_ with
  | JObj d =>
      match Py.dict_get d "type", Py.dict_get d "file" with
      | Some (JStr t), Some n =>
          (String.eqb t "all" || typed_change t) && Py.hashable n
      | _, _ => false
      end
  | _ => false
  end.

(** A commit the outer loop can record: a dict whose files, when the key
    is there, can be iterated and are all recordable. *)
Definition commit_accepted (commit : json) : bool :=
  match commit with
  | JObj d =>
      match Py.iter (match Py.dict_get d "files" with
                     | Some v => v
                     | None => JArr []
                     end) with
      | Ok entries => forallb entry_accepted entries
      | Raise _ => false
      end
  | _ => false
  end.

Definition payload_accepted (payload : json) : bool :=
  match payload with
  | JObj d =>
      match Py.iter (match Py.dict_get d "commits" with
                     | Some v => v
                     | None => JArr []
                     end) with
      | Ok commits => forallb commit_accepted commits
      | Raise _ => false
      end
  | _ => false
  end.

(** Every member of the four sets can be hashed. *)
Definition members_hashable (fs : Files) : Prop :=
  Forall (fun x => Py.hashable x = true) (f_all fs)
  /\ Forall (fun x => Py.hashable x = true) (f_added fs)
  /\ Forall (fun x => Py.hashable x = true) (f_removed fs)
  /\ Forall (fun x => Py.hashable x = true) (f_modified fs).

(** Two runs that differ at most in the flag of the lines they yield. *)
Definition same_but_flag {A} (m m' : Eff A) : Prop :=
  snd m = snd m'
  /\ shortened (fst m) = shortened (fst m')
  /\ map text (lines_of (fst m)) = map text (lines_of (fst m')).

(** A string of white space only. *)
Fixpoint all_space (s : string) : bool :=
  match s with
  | EmptyString => true
  | String c s' => Py.is_space c && all_space s'
  end.

(** A string without the character [c]. *)
Fixpoint free_of (c : ascii) (s : string) : bool :=
  match s with
  | EmptyString => true
  | String x s' => negb (Ascii.eqb x c) && free_of c s'
  end.

(** [s.startswith(p)]. *)
Fixpoint starts_with (p s : string) : bool :=
  match p, s with
  | EmptyString, _ => true
  | String a p', String b s' => Ascii.eqb a b && starts_with p' s'
  | String _ _, EmptyString => false
  end.

(** ** Base64, as [base64.b64encode] and [base64.urlsafe_b64encode] *)

Module Base64.

Definition standard_alphabet : string :=
  "ABCDEFGHIJKLMNOPQRSTUVWXYZabcdefghijklmnopqrstuvwxyz0123456789+/".

Definition pad : ascii := "="%char.

(** The character of a six-bit group. *)
Definition digit (i : N) : ascii :=
  nth (N.to_nat i) (list_ascii_of_string standard_alphabet) pad.

(** Three bytes give four characters; one or two bytes left over give
    two or three characters and padding. *)
Fixpoint b64encode (s : string) : string :=
  match s with
  | String a (String b (String c rest)) =>
      let n := (N_of_ascii a * 65536 + N_of_ascii b * 256 + N_of_ascii c)%N in
      String (digit (n / 262144))
        (String (digit ((n / 4096) mod 64))
           (String (digit ((n / 64) mod 64))
              (String (digit (n mod 64)) (b64encode rest))))
  | String a (String b EmptyString) =>
      let n := (N_of_ascii a * 65536 + N_of_ascii b * 256)%N in
      String (digit (n / 262144))
        (String (digit ((n / 4096) mod 64))
           (String (digit ((n / 64) mod 64)) (String pad EmptyString)))
  | String a EmptyString =>
      let n := (N_of_ascii a * 65536)%N in
      String (digit (n / 262144))
        (String (digit ((n / 4096) mod 64))
           (String pad (String pad EmptyString)))
  | EmptyString => EmptyString
  end.

(** The URL-safe variant writes [-] for [+] and [_] for [/]. *)
Definition translate (c : ascii) : ascii :=
  if Ascii.eqb c "+" then "-"%char
  else if Ascii.eqb c "/" then "_"%char
  else c.

Fixpoint translate_all (s : string) : string :=
  match s with
  | EmptyString => EmptyString
  | String c s' => String (translate c) (translate_all s')
  end.

Definition urlsafe_b64encode (s : string) : string :=
  translate_all (b64encode s).

(** Letters, digits, [+] and [/]. *)
Definition standard_char (c : ascii) : bool :=
  let n := nat_of_ascii c in
  ((65 <=? n)%nat && (n <=? 90)%nat) || ((97 <=? n)%nat && (n <=? 122)%nat)
  || ((48 <=? n)%nat && (n <=? 57)%nat) || (n =? 43)%nat || (n =? 47)%nat.

(** Letters, digits, [-] and [_]: the characters that need no escaping in
    a URL. *)
Definition urlsafe_char (c : ascii) : bool :=
  let n := nat_of_ascii c in
  ((65 <=? n)%nat && (n <=? 90)%nat) || ((97 <=? n)%nat && (n <=? 122)%nat)
  || ((48 <=? n)%nat && (n <=? 57)%nat) || (n =? 45)%nat || (n =? 95)%nat.

Fixpoint all_chars (p : ascii -> bool) (s : string) : bool :=
  match s with
  | EmptyString => true
  | String c s' => p c && all_chars p s'
  end.

End Base64.

(** ** The models of [notifico/models.py]

    A table is the list of its rows; [filter_by] keeps the rows that
    satisfy the criterion, [first()] is the first of them and [count()]
    their number.  The columns the database fills in by itself ([id] and
    the time stamps) are left out.  [hashlib.sha256(...).hexdigest()] is
    taken as it is, and the bytes [os.urandom] returns are an argument of
    the functions that draw them. *)

Module User.

Record t : Type := mk {
  username : string;
  email : string;
  password : string;
  salt : string;
  company : option string;
  website : option string;
  location : option string
}.

Section Functions.

Variable sha256_hexdigest : string -> string.

(** [base64.b64encode(os.urandom(8))[:8]]. *)
Definition _create_salt (urandom8 : string) : string :=
  substring 0 8 (Base64.b64encode urandom8).

Definition _hash_password (password salt : string) : string :=
  sha256_hexdigest (salt ++ Py.strip password).

Definition new (username email password urandom8 : string) : t :=
  let salt := _create_salt urandom8 in
  mk (Py.strip username)
     (Py.strip (Py.lower email))
     (_hash_password password salt)
     salt
     None None None.

Definition set_password (self : t) (new_password urandom8 : string) : t :=
  let salt := _create_salt urandom8 in
  mk (username self) (email self) (_hash_password new_password salt) salt
     (company self) (website self) (location self).

(** [CaseInsensitiveComparator.__eq__] on the column [username]. *)
Definition username_i_eq (row : t) (other : string) : bool :=
  String.eqb (Py.lower (username row)) (Py.lower other).

Variable table : list t.

Definition by_email (email_ : string) : option t :=
  find (fun row => String.eqb (email row) (Py.strip (Py.lower email_))) table.

Definition by_username (username_ : string) : option t :=
  find (fun row => username_i_eq row username_) table.

Definition email_exists (email_ : string) : bool :=
  (1 <=? List.length
           (filter (fun row =>
                      String.eqb (email row) (Py.strip (Py.lower email_)))
              table))%nat.

Definition username_exists (username_ : string) : bool :=
  (1 <=? List.length (filter (fun row => username_i_eq row username_) table))%nat.

Definition login (username_ password_ : string) : option t :=
  match by_username username_ with
  | Some u =>
      if String.eqb (password u) (_hash_password password_ (salt u))
      then Some u
      else None
  | None => None
  end.

End Functions.

End User.

Module Project.

Record t : Type := mk {
  name : string;
  public : bool;
  website : option string
}.

(** [website.strip() if website else None]. *)
Definition new (name_ : string) (public_ : bool) (website_ : option string) : t :=
  mk (Py.strip name_) public_
     (match website_ with
      | Some w => if String.eqb w "" then None else Some (Py.strip w)
      | None => None
      end).

(** [CaseInsensitiveComparator.__eq__] on the column [name]. *)
Definition name_i_eq (row : t) (other : string) : bool :=
  String.eqb (Py.lower (name row)) (Py.lower other).

Definition by_name (table : list t) (name_ : string) : option t :=
  find (fun row => name_i_eq row name_) table.

End Project.

Module HookRow.

(** The class [Hook] of the models; [config] is the pickled
    configuration the service hook reads. *)
Record t : Type := mk {
  key : string;
  service_id : Z;
  hook_config : option Config
}.

(** [base64.urlsafe_b64encode(os.urandom(24))[:24]]. *)
Definition _new_key (urandom24 : string) : string :=
  substring 0 24 (Base64.urlsafe_b64encode urandom24).

Definition new (service_id_ : Z) (config_ : option Config) (urandom24 : string)
  : t :=
  mk (_new_key urandom24) service_id_ config_.

End HookRow.

(** ** More sample data *)

(** A commit without the key author. *)
Definition anonymous_commit : json :=
  JObj [("node", JStr "fedcba987654"); ("message", JStr "oops")].

(** Three commits, the second of which has no author. *)
Definition broken_commits : list json :=
  [sample_commit "" [] "0123456789ab";
   anonymous_commit;
   sample_commit "" [] "23456789abcd"].

(** One commit whose branch is a number. *)
Definition numbered_branch_payload : json :=
  sample_payload
    [JObj [("author", JStr "tk"); ("node", JStr "0123456789ab");
           ("message", JStr "fix"); ("branch", JNum 7)]].

(** A stand-in for the digest, and a table of two users. *)
Definition sample_digest : string -> string := fun s => "digest of " ++ s.

Definition alice : User.t :=
  User.new sample_digest " Alice " "Alice@Example.ORG " "secret" "12345678".

Definition bob : User.t :=
  User.new sample_digest "bob" "bob@example.org" "hunter2" "abcdefgh".

Definition sample_users : list User.t := [bob; alice].


(** * Properties *)

Example json_loads_round_trip :
  Json.json_loads
    (Json.encode
       (JObj [("commits", JArr [JObj [("branch", JStr "dev");
                                      ("n", JNum (-12))];
                                JBool true; JNull]);
              ("user", JStr "a b")]))
  = Ok (JObj [("commits", JArr [JObj [("branch", JStr "dev");
                                      ("n", JNum (-12))];
                                JBool true; JNull]);
              ("user", JStr "a b")]).
Proof. vm_compute. reflexivity. Qed.

Example json_loads_rejects_open_brace :
  Json.json_loads "{" = Raise ValueError.
Proof. vm_compute. reflexivity. Qed.

Example json_loads_rejects_words :
  Json.json_loads "not json" = Raise ValueError.
Proof. vm_compute. reflexivity. Qed.

Example json_loads_nested_list :
  Json.json_loads " [1, [true, null], {}, -0 ] "
  = Ok (JArr [JNum 1; JArr [JBool true; JNull]; JObj []; JNum 0]).
Proof. vm_compute. reflexivity. Qed.

(** ** The two monads *)

Lemma bind_lift_ok {A B} (a : A) (f : A -> Eff B) :
  eff_bind (lift (Ok a)) f = f a.
Proof. unfold eff_bind, lift. destruct (f a). reflexivity. Qed.

Lemma bind_lift_raise {A B} (e : Exn) (f : A -> Eff B) :
  eff_bind (lift (Raise e)) f = ([], Raise e).
Proof. reflexivity. Qed.

Lemma eff_bind_ext {A B} (m : Eff A) (f g : A -> Eff B) :
  (forall a, f a = g a) -> eff_bind m f = eff_bind m g.
Proof.
  intros H. destruct m as [t [a | e]]; simpl; [rewrite H |]; reflexivity.
Qed.

Lemma trace_bind {A B} (m : Eff A) (f : A -> Eff B) :
  fst (eff_bind m f)
  = (fst m ++ match snd m with
              | Ok a => fst (f a)
              | Raise _ => []
              end)%list.
Proof.
  destruct m as [t [a | e]]; simpl.
  - destruct (f a); reflexivity.
  - now rewrite app_nil_r.
Qed.

Lemma res_bind_ok {A B} (m : Res A) (f : A -> Res B) (b : B) :
  res_bind m f = Ok b -> exists a, m = Ok a /\ f a = Ok b.
Proof. destruct m as [a | e]; simpl; [eauto | discriminate]. Qed.

Ltac bind_ok H x Hx :=
  apply res_bind_ok in H; destruct H as [x [Hx H]].

(** ** The normaliser *)

Lemma simplify_payload_inv (payload : json) (j : Normalized) :
  simplify_payload payload = Ok j ->
  exists d fs,
    payload = JObj d
    /\ Py.iter (match Py.dict_get d "commits" with
                | Some v => v
                | None => JArr []
                end) = Ok (commits_of payload)
    /\ record_commits (empty_files, JNull) (commits_of payload)
       = Ok (fs, branch j)
    /\ files j = fs
    /\ original j = payload
    /\ pusher j = match Py.dict_get d "user" with
                  | Some v => v
                  | None => JNull
                  end.
Proof.
  unfold simplify_payload. intros H.
  bind_ok H cv Hcv. bind_ok H cs Hcs. bind_ok H acc Hacc. bind_ok H u Hu.
  destruct payload; try discriminate. simpl in Hcv, Hu.
  inversion Hcv; subst cv; clear Hcv. inversion Hu; subst u; clear Hu.
  inversion H; subst j; clear H. simpl.
  exists d, (fst acc). unfold commits_of. simpl. rewrite Hcs.
  destruct acc; simpl. auto 10.
Qed.

Lemma simplify_original (payload : json) (j : Normalized) :
  simplify_payload payload = Ok j -> original j = payload.
Proof.
  intros H. destruct (simplify_payload_inv _ _ H) as (d & fs & _ & _ & _ & _ & Ho & _).
  exact Ho.
Qed.

Lemma last_nonempty {A} (x : A) (l : list A) (d d' : A) :
  last (x :: l) d = last (x :: l) d'.
Proof.
  revert x. induction l as [| y l IH]; intros x; [reflexivity |].
  change (last (y :: l) d = last (y :: l) d'). apply IH.
Qed.

(** The branch after a run of the loop is the last truthy branch a
    commit declares, and the one before the loop when there is none. *)
Lemma record_commits_branch (cs : list json) :
  forall fs b0 fs' b',
    record_commits (fs, b0) cs = Ok (fs', b') ->
    b' = last (filter Py.truthy (map branch_of cs)) b0.
Proof.
  induction cs as [| c cs IH]; simpl; intros fs b0 fs' b' H.
  - now inversion H.
  - bind_ok H acc Hc. destruct acc as [fs1 b1].
    apply IH in H. subst b'.
    unfold record_commit in Hc.
    bind_ok Hc fl Hfl. bind_ok Hc es Hes. bind_ok Hc fs2 Hfs. bind_ok Hc b Hb.
    inversion Hc; subst; clear Hc. cbn [map filter snd].
    replace (branch_of c) with b by (unfold branch_of; now rewrite Hb).
    destruct (Py.truthy b) eqn:Ht; [| reflexivity].
    cbn [last].
    destruct (filter Py.truthy (map branch_of cs)) eqn:Hf;
      [reflexivity | apply last_nonempty].
Qed.

Lemma last_filter_truthy (vs : list json) :
  last (filter Py.truthy vs) JNull = JNull
  \/ Py.truthy (last (filter Py.truthy vs) JNull) = true.
Proof.
  destruct (filter Py.truthy vs) as [| x l] eqn:Hf; [now left | right].
  assert (Hin : In (last (x :: l) JNull) (filter Py.truthy vs)).
  { rewrite Hf. destruct (exists_last (l := x :: l)) as (l' & a & Hl);
      [discriminate |].
    rewrite Hl, last_last. apply in_or_app. right. now left. }
  apply filter_In in Hin. tauto.
Qed.

Lemma simplify_branch (payload : json) (j : Normalized) :
  simplify_payload payload = Ok j ->
  branch j = last_truthy (map branch_of (commits_of payload)).
Proof.
  intros H. destruct (simplify_payload_inv _ _ H) as (d & fs & _ & _ & Hr & _).
  now apply record_commits_branch in Hr.
Qed.

(** A commit that is not a dict stops the loop. *)
Lemma record_commits_objects (cs : list json) :
  forall acc acc',
    record_commits acc cs = Ok acc' ->
    Forall (fun c => exists d, c = JObj d) cs.
Proof.
  induction cs as [| c cs IH]; simpl; intros acc acc' H; [constructor |].
  bind_ok H acc1 Hc. constructor; [| eauto].
  unfold record_commit in Hc. bind_ok Hc fl Hfl.
  destruct c; try discriminate. eauto.
Qed.

(** When the normalised branch is set, it is truthy and the payload has a
    non-empty list of commits. *)
Lemma simplify_branch_set (payload : json) (j : Normalized) :
  simplify_payload payload = Ok j ->
  branch j <> JNull ->
  Py.truthy (branch j) = true
  /\ exists c cs, Py.getitem payload "commits" = Ok (JArr (c :: cs)).
Proof.
  intros H Hb.
  pose proof (simplify_branch _ _ H) as Hl.
  destruct (simplify_payload_inv _ _ H) as (d & fs & Hp & Hit & Hr & _).
  split.
  - unfold last_truthy in Hl.
    destruct (last_filter_truthy (map branch_of (commits_of payload)));
      congruence.
  - apply record_commits_objects in Hr.
    destruct (commits_of payload) as [| c cs] eqn:Hcs.
    { exfalso. apply Hb. rewrite Hl. reflexivity. }
    subst payload. simpl.
    inversion Hr as [| ? ? [d' Hd'] _]; subst.
    destruct (Py.dict_get d "commits") as [v |]; [| discriminate].
    destruct v; simpl in Hit; try discriminate.
    + exfalso. destruct (list_ascii_of_string s); simpl in Hit; discriminate.
    + inversion Hit; subst. eauto.
    + exfalso. destruct d0; simpl in Hit; discriminate.
Qed.
(** ** Members of the file sets *)

Lemma py_eqb_sym (a b : json) : Py.eqb a b = Py.eqb b a.
Proof.
  destruct a as [| [|] | m | s | |], b as [| [|] | n | t | |];
    unfold Py.eqb, Py.as_int;
    try reflexivity; try apply Z.eqb_sym; apply String.eqb_sym.
Qed.

Lemma py_eqb_trans (a b c : json) :
  Py.eqb a b = true -> Py.eqb b c = true -> Py.eqb a c = true.
Proof.
  destruct a as [| [|] | m | s | |], b as [| [|] | n | t | |];
    unfold Py.eqb, Py.as_int; try discriminate; intros Hab;
    try apply Z.eqb_eq in Hab; try apply String.eqb_eq in Hab; subst;
    destruct c as [| [|] | k | u | |]; try discriminate; auto.
Qed.

Lemma set_mem_app (x : json) (s t : Py.pyset) :
  Py.set_mem x (s ++ t)%list = Py.set_mem x s || Py.set_mem x t.
Proof. apply existsb_app. Qed.

Lemma set_mem_eqb (x n : json) (s : Py.pyset) :
  Py.set_mem n s = true -> Py.eqb x n = true -> Py.set_mem x s = true.
Proof.
  unfold Py.set_mem. rewrite !existsb_exists.
  intros (y & Hy & Hny) Hxn. exists y. split; [assumption |].
  eapply py_eqb_trans; eassumption.
Qed.

Lemma distinct_snoc (n : json) (s : Py.pyset) :
  distinct s = true ->
  Py.set_mem n s = false ->
  distinct (s ++ [n])%list = true.
Proof.
  induction s as [| y r IH]; simpl; intros Hd Hm; [reflexivity |].
  apply andb_prop in Hd. destruct Hd as [Hy Hr].
  apply orb_false_elim in Hm. destruct Hm as [Hny Hnr].
  rewrite set_mem_app. simpl. rewrite (py_eqb_sym y n), Hny, orb_false_r.
  rewrite Hy. now apply IH.
Qed.

(** What [add] does to the members of a set. *)
Lemma set_add_spec (n : json) (s s' : Py.pyset) :
  Py.set_add n s = Ok s' ->
  (forall x, Py.set_mem x s' = Py.set_mem x s || Py.eqb x n)
  /\ (distinct s = true -> distinct s' = true).
Proof.
  unfold Py.set_add. destruct (Py.hashable n); [| discriminate].
  destruct (Py.set_mem n s) eqn:Hm; intros H; inversion H; subst s'; clear H.
  - split; [| auto]. intros x.
    destruct (Py.eqb x n) eqn:Hx; [| now rewrite orb_false_r].
    rewrite (set_mem_eqb x n s Hm Hx). reflexivity.
  - split.
    + intros x. rewrite set_mem_app. simpl. now rewrite orb_false_r.
    + intros Hd. now apply distinct_snoc.
Qed.

Lemma files_add_spec (fs fs' : Files) (ty n : json) :
  files_add fs ty n = Ok fs' ->
  exists t,
    ty = JStr t
    /\ (String.eqb t "all" || typed_change t) = true
    /\ (forall x,
           Py.set_mem x (f_all fs')
           = Py.set_mem x (f_all fs) || (String.eqb t "all" && Py.eqb x n))
    /\ (forall x,
           Py.set_mem x (f_added fs')
           = Py.set_mem x (f_added fs) || (String.eqb t "added" && Py.eqb x n))
    /\ (forall x,
           Py.set_mem x (f_removed fs')
           = Py.set_mem x (f_removed fs)
             || (String.eqb t "removed" && Py.eqb x n))
    /\ (forall x,
           Py.set_mem x (f_modified fs')
           = Py.set_mem x (f_modified fs)
             || (String.eqb t "modified" && Py.eqb x n))
    /\ (distinct (f_all fs) = true -> distinct (f_all fs') = true)
    /\ (distinct (f_added fs) = true -> distinct (f_added fs') = true)
    /\ (distinct (f_removed fs) = true -> distinct (f_removed fs') = true)
    /\ (distinct (f_modified fs) = true -> distinct (f_modified fs') = true).
Proof.
  unfold files_add. destruct ty as [| | | t | |]; try discriminate.
  intros H. exists t. split; [reflexivity |]. unfold typed_change.
  destruct (String.eqb t "all") eqn:E1;
    [| destruct (String.eqb t "added") eqn:E2;
       [| destruct (String.eqb t "removed") eqn:E3;
          [| destruct (String.eqb t "modified") eqn:E4; [| discriminate]]]];
    match goal with
    | E : String.eqb t _ = true |- _ =>
        pose proof E as E'; apply String.eqb_eq in E'; subst t
    end;
    bind_ok H s Hs; inversion H; subst fs'; clear H; simpl;
    destruct (set_add_spec _ _ _ Hs) as [Hm Hd];
    repeat split; auto; intros x; rewrite ?Hm, ?orb_false_r; reflexivity.
Qed.

Lemma declared_snoc (k t : string) (n : json) (es : list (json * json)) (x : json) :
  Py.set_mem x (declared k (es ++ [(JStr t, n)]))
  = Py.set_mem x (declared k es) || (String.eqb t k && Py.eqb x n).
Proof.
  unfold declared. rewrite filter_app, map_app, set_mem_app. f_equal.
  simpl. destruct (String.eqb t k); simpl; [apply orb_false_r | reflexivity].
Qed.

Lemma record_file_inv (fs fs' : Files) (file_ : json) (es : list (json * json)) :
  record_file fs file_ = Ok fs' ->
  files_inv fs es ->
  files_inv fs' (es ++ entry_of file_).
Proof.
  unfold record_file. intros H (Hall & Hadd & Hrem & Hmod & Hdis & Hty).
  bind_ok H ty Hty'. bind_ok H n Hn. bind_ok H fs1 H1.
  unfold entry_of. rewrite Hty', Hn.
  destruct (files_add_spec _ _ _ _ H1)
    as (t & -> & Ht & A1 & B1 & C1 & D1 & dA1 & dB1 & dC1 & dD1).
  destruct (files_add_spec _ _ _ _ H)
    as (t' & Heq & _ & A2 & B2 & C2 & D2 & dA2 & dB2 & dC2 & dD2).
  inversion Heq; subst t'; clear Heq. simpl in A2, B2, C2, D2.
  destruct Hdis as (d1 & d2 & d3 & d4).
  repeat split; auto.
  - intros x. rewrite A2, A1, Hall, map_app, set_mem_app. simpl.
    destruct (Py.set_mem x (map snd es)), (String.eqb t "all"), (Py.eqb x n);
      reflexivity.
  - intros x. rewrite B2, B1, Hadd, declared_snoc. now rewrite orb_false_r.
  - intros x. rewrite C2, C1, Hrem, declared_snoc. now rewrite orb_false_r.
  - intros x. rewrite D2, D1, Hmod, declared_snoc. now rewrite orb_false_r.
  - apply Forall_app. split; [assumption |]. repeat constructor.
    exists t. auto.
Qed.

Lemma record_files_inv (entries : list json) :
  forall fs fs' es,
    record_files fs entries = Ok fs' ->
    files_inv fs es ->
    files_inv fs' (es ++ flat_map entry_of entries).
Proof.
  induction entries as [| f rest IH]; simpl; intros fs fs' es H Hinv.
  - inversion H; subst. now rewrite app_nil_r.
  - bind_ok H fs1 H1. rewrite app_assoc. eapply IH; [exact H |].
    eapply record_file_inv; eassumption.
Qed.

Lemma record_commits_inv (commits : list json) :
  forall fs b fs' b' es,
    record_commits (fs, b) commits = Ok (fs', b') ->
    files_inv fs es ->
    files_inv fs' (es ++ entries_of commits).
Proof.
  induction commits as [| c rest IH]; simpl; intros fs b fs' b' es H Hinv.
  - inversion H; subst. unfold entries_of. simpl. now rewrite app_nil_r.
  - bind_ok H acc Hc. destruct acc as [fs1 b1].
    unfold entries_of. simpl. rewrite app_assoc. eapply IH; [exact H |].
    unfold record_commit in Hc.
    bind_ok Hc fl Hfl. bind_ok Hc ents Hents. bind_ok Hc fs2 Hfs.
    bind_ok Hc br Hbr. inversion Hc; subst; clear Hc.
    unfold entries_of_commit. rewrite Hfl, Hents.
    eapply record_files_inv; eassumption.
Qed.

Lemma files_inv_empty : files_inv empty_files [].
Proof. repeat split; constructor. Qed.

Lemma simplify_files_inv (payload : json) (j : Normalized) :
  simplify_payload payload = Ok j ->
  files_inv (files j) (entries_of (commits_of payload)).
Proof.
  intros H. destruct (simplify_payload_inv _ _ H) as (d & fs & _ & _ & Hr & Hf & _).
  subst fs. apply (record_commits_inv _ _ _ _ _ [] Hr files_inv_empty).
Qed.

(** Every recorded entry has one of the four keys as its type. *)
Lemma members_by_type (es : list (json * json)) (x : json) :
  Forall (fun e => exists t, fst e = JStr t
                             /\ (String.eqb t "all" || typed_change t) = true)
    es ->
  Py.set_mem x (map snd es)
  = Py.set_mem x (declared "added" es)
    || Py.set_mem x (declared "removed" es)
    || Py.set_mem x (declared "modified" es)
    || Py.set_mem x (declared "all" es).
Proof.
  induction 1 as [| [ty n] es (t & Ht & Hk) _ IH]; [reflexivity |].
  simpl in Ht. subst ty.
  change ((JStr t, n) :: es) with ([(JStr t, n)] ++ es)%list.
  unfold declared in *. rewrite !filter_app, !map_app, !set_mem_app, IH.
  unfold typed_change in Hk. simpl.
  destruct (String.eqb t "all") eqn:E1;
    [| destruct (String.eqb t "added") eqn:E2;
       [| destruct (String.eqb t "removed") eqn:E3;
          [| destruct (String.eqb t "modified") eqn:E4; [| discriminate]]]];
    match goal with
    | E : String.eqb t _ = true |- _ => apply String.eqb_eq in E; subst t
    end; simpl; rewrite ?orb_false_r;
    repeat match goal with
           | |- context [Py.set_mem ?a ?l] => destruct (Py.set_mem a l)
           | |- context [Py.eqb ?a ?b] => destruct (Py.eqb a b)
           end; reflexivity.
Qed.

(** ** The normaliser returns on well-shaped payloads *)

Lemma record_file_total (fs : Files) (file_ : json) :
  file_ok file_ = true -> exists fs', record_file fs file_ = Ok fs'.
Proof.
  unfold file_ok, record_file. destruct file_ as [| | | | | d]; try discriminate.
  simpl.
  destruct (Py.dict_get d "type") as [[| | | t | |] |]; try discriminate.
  destruct (Py.dict_get d "file") as [n |]; [| discriminate].
  intros H. apply andb_prop in H. destruct H as [Ht Hn]. simpl.
  unfold typed_change in Ht. unfold files_add, Py.set_add.
  destruct (String.eqb t "all");
    [| destruct (String.eqb t "added");
       [| destruct (String.eqb t "removed");
          [| destruct (String.eqb t "modified"); [| discriminate]]]];
    rewrite ?Hn; simpl; rewrite ?Hn; simpl; eauto.
Qed.

Lemma record_files_total (entries : list json) :
  forallb file_ok entries = true ->
  forall fs, exists fs', record_files fs entries = Ok fs'.
Proof.
  induction entries as [| f rest IH]; simpl; intros H fs; [eauto |].
  apply andb_prop in H. destruct H as [Hf Hrest].
  destruct (record_file_total fs f Hf) as [fs1 H1]. rewrite H1. simpl.
  now apply IH.
Qed.

Lemma record_commit_total (acc : Files * json) (commit : json) :
  commit_files file_ok commit = true ->
  exists acc', record_commit acc commit = Ok acc'.
Proof.
  unfold commit_files, record_commit.
  destruct commit as [| | | | | d]; try discriminate. simpl.
  destruct (Py.dict_get d "files") as [[| | | | fs |] |]; try discriminate;
    intros H; simpl.
  - destruct (record_files_total fs H (fst acc)) as [fs' Hfs].
    rewrite Hfs. simpl. eauto.
  - eauto.
Qed.

Lemma record_commits_total (commits : list json) :
  forallb (commit_files file_ok) commits = true ->
  forall acc, exists acc', record_commits acc commits = Ok acc'.
Proof.
  induction commits as [| c rest IH]; simpl; intros H acc; [eauto |].
  apply andb_prop in H. destruct H as [Hc Hrest].
  destruct (record_commit_total acc c Hc) as [acc1 H1]. rewrite H1. simpl.
  now apply IH.
Qed.

Lemma files_shape_total (payload : json) :
  files_shape file_ok payload = true ->
  exists j, simplify_payload payload = Ok j.
Proof.
  intros H. unfold files_shape in H.
  destruct payload as [| | | | | d]; try discriminate.
  unfold simplify_payload. simpl.
  destruct (Py.dict_get d "commits") as [[| | | | cs |] |]; try discriminate;
    simpl.
  - destruct (record_commits_total cs H (empty_files, JNull)) as [acc Hacc].
    rewrite Hacc. simpl. eauto.
  - eauto.
Qed.

Lemma normalized_of_ok (payload : json) (j : Normalized) :
  simplify_payload payload = Ok j -> normalized_of payload = j.
Proof. unfold normalized_of. now intros ->. Qed.

Lemma renderable_files_shape (hook : Hook) (payload : json) :
  renderable hook payload = true -> files_shape file_ok payload = true.
Proof.
  unfold renderable, files_shape.
  destruct payload as [| | | | | d]; try discriminate.
  destruct (Py.dict_get d "commits") as [[| | | | cs |] |]; try discriminate.
  intros H. apply andb_prop in H. destruct H as [H _].
  apply andb_prop in H. destruct H as [H _].
  rewrite forallb_forall in *. intros c Hc. specialize (H c Hc).
  unfold commit_renderable in H. apply andb_prop in H. tauto.
Qed.

(** C10: on a payload object whose commits, when present, are a list of
    objects, each with, when present, a list of file entries that have a
    type among added, removed and modified and a hashable name, the
    normaliser returns; on a payload with a file entry of type renamed
    it raises [KeyError]. *)
Theorem simplify_payload_total (payload : json) :
  files_shape file_ok payload = true ->
  (exists j, simplify_payload payload = Ok j)
  /\ (typed_change "renamed" = false
      /\ simplify_payload renamed_payload = Raise KeyError).
Proof.
  intros H. split; [now apply files_shape_total | split; reflexivity].
Qed.

(** C5: the normalised branch is the last truthy branch a commit
    declares, in payload order, and [None] when no commit declares
    one. *)
Theorem branch_last_write_wins (payload : json) (j : Normalized) :
  simplify_payload payload = Ok j ->
  branch j = last (filter Py.truthy (map branch_of (commits_of payload))) JNull.
Proof.
  intros H.
  destruct (simplify_payload_inv _ _ H) as (d & fs & _ & _ & Hloop & _).
  exact (record_commits_branch _ _ _ _ _ Hloop).
Qed.

(** C6: each of the sets added, removed and modified holds,
    once each, the names the commits declare with that type; the set
    all holds every declared name, which makes it the union of the
    three together with the names declared with the type all; a name
    can be in more than one of the three. *)
Theorem file_sets_are_unions (payload : json) (j : Normalized) :
  simplify_payload payload = Ok j ->
  let es := entries_of (commits_of payload) in
  let fs := files j in
  (forall x, Py.set_mem x (f_added fs) = Py.set_mem x (declared "added" es))
  /\ (forall x,
         Py.set_mem x (f_removed fs) = Py.set_mem x (declared "removed" es))
  /\ (forall x,
         Py.set_mem x (f_modified fs) = Py.set_mem x (declared "modified" es))
  /\ (forall x, Py.set_mem x (f_all fs) = Py.set_mem x (map snd es))
  /\ (distinct (f_all fs) = true /\ distinct (f_added fs) = true
      /\ distinct (f_removed fs) = true /\ distinct (f_modified fs) = true)
  /\ (forall x,
         Py.set_mem x (f_all fs)
         = Py.set_mem x (f_added fs) || Py.set_mem x (f_removed fs)
           || Py.set_mem x (f_modified fs)
           || Py.set_mem x (declared "all" es))
  /\ (exists x,
         Py.set_mem x (f_added (files (normalized_of
                                         (sample_payload three_commits))))
         && Py.set_mem x (f_modified (files (normalized_of
                                               (sample_payload three_commits))))
         = true).
Proof.
  intros H es fs.
  destruct (simplify_files_inv _ _ H) as (Hall & Hadd & Hrem & Hmod & Hd & Hty).
  fold es in Hall, Hadd, Hrem, Hmod, Hty. fold fs in Hall, Hadd, Hrem, Hmod, Hd.
  repeat (split; [assumption |]). split.
  - intros x. rewrite Hall, Hadd, Hrem, Hmod. now apply members_by_type.
  - exists (JStr "a.py"). reflexivity.
Qed.

(** ** The dispatch *)

Section Dispatch.

Variable colors : Colors.
Variable shorten_url : string -> string.
Variable container_text : json -> string.
Variable loads : string -> Res json.

Local Abbreviation handle := (handle_request colors shorten_url container_text loads).
Local Abbreviation render := (render_lines colors shorten_url container_text).

(** The dispatch once the body is decoded and normalised. *)
Lemma handle_request_decoded (hook : Hook) (body : string) (payload : json)
  (j : Normalized) :
  body <> "" ->
  loads body = Ok payload ->
  simplify_payload payload = Ok j ->
  handle hook (Some body)
  = eff_bind (lift (Py.getitem payload "commits")) (fun commits =>
      if negb (Py.truthy commits) then eff_ret tt else
      eff_bind (lift (branch_unwanted j (config_or_empty hook))) (fun drop =>
        if drop then eff_ret tt
        else render hook j (config_or_empty hook) (strip_of hook))).
Proof.
  intros Hne Hl Hs. unfold handle_request.
  apply String.eqb_neq in Hne. rewrite Hne, Hl, bind_lift_ok, Hs, bind_lift_ok.
  rewrite (simplify_original _ _ Hs). reflexivity.
Qed.

(** C1: a non-empty body the decoder rejects makes the dispatch
    raise the decoder's error before anything is yielded; an absent or
    empty payload field gives the empty sequence without an error. *)
Theorem malformed_body_propagates (hook : Hook) (body : string) (e : Exn) :
  body <> "" ->
  loads body = Raise e ->
  handle hook (Some body) = ([], Raise e)
  /\ handle hook (Some "") = ([], Ok tt)
  /\ handle hook None = ([], Ok tt).
Proof.
  intros Hne Hl. repeat split.
  unfold handle_request.
  apply String.eqb_neq in Hne. now rewrite Hne, Hl.
Qed.

Lemma empty_commits_noop (hook : Hook) (body : string)
  (d : list (string * json)) :
  body <> "" ->
  loads body = Ok (JObj d) ->
  Py.dict_get d "commits" = Some (JArr []) ->
  handle hook (Some body) = ([], Ok tt).
Proof.
  intros Hne Hl Hc.
  assert (Hs : exists j, simplify_payload (JObj d) = Ok j).
  { unfold simplify_payload. simpl. rewrite Hc. simpl. eauto. }
  destruct Hs as [j Hs].
  rewrite (handle_request_decoded _ _ _ _ Hne Hl Hs).
  simpl. rewrite Hc. reflexivity.
Qed.

Lemma absent_commits_raise (hook : Hook) (body : string)
  (d : list (string * json)) :
  body <> "" ->
  loads body = Ok (JObj d) ->
  Py.dict_get d "commits" = None ->
  handle hook (Some body) = ([], Raise KeyError).
Proof.
  intros Hne Hl Hc.
  assert (Hs : exists j, simplify_payload (JObj d) = Ok j).
  { unfold simplify_payload. simpl. rewrite Hc. simpl. eauto. }
  destruct Hs as [j Hs].
  rewrite (handle_request_decoded _ _ _ _ Hne Hl Hs).
  simpl. rewrite Hc. reflexivity.
Qed.

(** What is rendered does not depend on [config.branches]: the filter is
    consulted once, before the first line. *)
Lemma render_lines_ignores_branches (j : Normalized) (flag : bool)
  (bs bs' : option string) (uc sb sra : option bool) :
  render (mkHook (Some (mkConfig bs uc sb sra))) j (mkConfig bs uc sb sra) flag
  = render (mkHook (Some (mkConfig bs' uc sb sra))) j
      (mkConfig bs' uc sb sra) flag.
Proof.
  unfold render_lines.
  assert (H : forall cs,
             yield_commit_lines colors container_text
               (mkHook (Some (mkConfig bs uc sb sra))) j flag cs
             = yield_commit_lines colors container_text
                 (mkHook (Some (mkConfig bs' uc sb sra))) j flag cs).
  { induction cs as [| c cs IH]; [reflexivity |].
    cbn [yield_commit_lines]. now rewrite IH. }
  change (_make_summary_line colors shorten_url container_text
            (mkHook (Some (mkConfig bs' uc sb sra))) j (mkConfig bs' uc sb sra))
    with (_make_summary_line colors shorten_url container_text
            (mkHook (Some (mkConfig bs uc sb sra))) j (mkConfig bs uc sb sra)).
  apply eff_bind_ext. intros summary.
  apply eff_bind_ext. intros _.
  apply eff_bind_ext. intros cv.
  apply eff_bind_ext. intros cs. apply H.
Qed.

(** C9: when no commit declared a branch, the event is rendered whatever
    [config.branches] holds. *)
Theorem unset_branch_passes_filter (hook : Hook) (body : string)
  (payload cv : json) (j : Normalized) :
  body <> "" ->
  loads body = Ok payload ->
  simplify_payload payload = Ok j ->
  branch j = JNull ->
  Py.getitem payload "commits" = Ok cv ->
  Py.truthy cv = true ->
  handle hook (Some body)
  = render hook j (config_or_empty hook) (strip_of hook).
Proof.
  intros Hne Hl Hs Hb Hc Ht.
  rewrite (handle_request_decoded _ _ _ _ Hne Hl Hs), Hc, bind_lift_ok, Ht.
  cbn [negb].
  assert (Hu : branch_unwanted j (config_or_empty hook) = Ok false).
  { unfold branch_unwanted. rewrite Hb. simpl.
    destruct (branches (config_or_empty hook)) as [bs |]; [| reflexivity].
    destruct (String.eqb bs ""); reflexivity. }
  now rewrite Hu, bind_lift_ok.
Qed.

(** C3: with a non-blank [config.branches] and a normalised branch that
    is a string, the dispatch renders the event when the lower-cased
    branch is among the comma-separated entries of [config.branches],
    each stripped and lower-cased, and otherwise ends with nothing
    yielded and the shortener not called. *)
Theorem branch_filter_gate (hook : Hook) (body : string) (payload : json)
  (j : Normalized) (bs b : string) :
  body <> "" ->
  loads body = Ok payload ->
  simplify_payload payload = Ok j ->
  branches (config_or_empty hook) = Some bs ->
  bs <> "" ->
  branch j = JStr b ->
  handle hook (Some body)
  = if in_list (Py.lower b)
         (map (fun entry => Py.lower (Py.strip entry)) (Py.split "," bs))
    then render hook j (config_or_empty hook) (strip_of hook)
    else ([], Ok tt).
Proof.
  intros Hne Hl Hs Hbs Hbne Hb.
  destruct (simplify_branch_set _ _ Hs) as (Ht & c & cs & Hc);
    [rewrite Hb; discriminate |].
  rewrite (handle_request_decoded _ _ _ _ Hne Hl Hs), Hc, bind_lift_ok.
  cbn [Py.truthy negb].
  unfold branch_unwanted. rewrite Hbs, Ht, Hb.
  apply String.eqb_neq in Hbne. rewrite Hbne. cbn [negb lower_method res_bind].
  rewrite bind_lift_ok. unfold wanted_branches.
  destruct (in_list _ _); reflexivity.
Qed.

(** *** Every line carries the same flag *)

Lemma lines_of_app (t u : list Event) :
  lines_of (t ++ u) = (lines_of t ++ lines_of u)%list.
Proof. unfold lines_of. now rewrite flat_map_app. Qed.

Lemma all_lines_bind {A B} (P : Line -> Prop) (m : Eff A) (f : A -> Eff B) :
  all_lines P m ->
  (forall a, all_lines P (f a)) ->
  all_lines P (eff_bind m f).
Proof.
  unfold all_lines. intros Hm Hf.
  rewrite trace_bind, lines_of_app. apply Forall_app. split; [exact Hm |].
  destruct (snd m); [apply Hf | constructor].
Qed.

Lemma all_lines_lift {A} (P : Line -> Prop) (r : Res A) :
  all_lines P (lift r).
Proof. constructor. Qed.

Lemma all_lines_ret {A} (P : Line -> Prop) (a : A) :
  all_lines P (eff_ret a).
Proof. constructor. Qed.

Lemma all_lines_yield (P : Line -> Prop) (l : Line) :
  P l -> all_lines P (yield l).
Proof. intros H. repeat constructor. exact H. Qed.

(** The summary line either raises before the shortener is called, or
    calls it once, on the link, and ends with what it returns. *)
Lemma summary_line_cases (hook : Hook) (j : Normalized) (config : Config) :
  (exists e,
      _make_summary_line colors shorten_url container_text hook j config
      = ([], Raise e))
  \/ (exists canon_url repository absolute_url items,
         Py.getitem (original j) "canon_url" = Ok canon_url
         /\ Py.getitem (original j) "repository" = Ok repository
         /\ Py.getitem repository "absolute_url" = Ok absolute_url
         /\ let link := format_value container_text canon_url
                          ++ format_value container_text absolute_url
                          ++ "commits/" in
            _make_summary_line colors shorten_url container_text hook j config
            = ([Shorten link],
               Ok (Py.join " "
                     (append_item items
                        (LIGHT_GREY colors ++ shorten_url link
                           ++ GREY colors))))
            /\ items <> []).
Proof.
  unfold _make_summary_line.
  repeat match goal with
         | |- context [eff_bind (lift ?r) _] =>
             destruct r eqn:?;
             [rewrite bind_lift_ok | left; eexists; reflexivity]
         end.
  right. do 4 eexists.
  repeat (split; [first [reflexivity | eassumption] |]).
  unfold append_item. intros H. apply app_eq_nil in H. destruct H; discriminate.
Qed.

Lemma summary_line_yields_nothing (hook : Hook) (j : Normalized)
  (config : Config) :
  lines_of (fst (_make_summary_line colors shorten_url container_text
                   hook j config)) = [].
Proof.
  destruct (summary_line_cases hook j config)
    as [[e H] | (c & r & a & items & _ & _ & _ & H & _)]; cbv zeta in *;
    rewrite H; reflexivity.
Qed.

Lemma all_lines_commits (P : Line -> Prop) (hook : Hook) (j : Normalized)
  (flag : bool) (cs : list json) :
  (forall s, P (message s flag)) ->
  all_lines P (yield_commit_lines colors container_text hook j flag cs).
Proof.
  intros HP. induction cs as [| c cs IH]; cbn [yield_commit_lines].
  - apply all_lines_ret.
  - apply all_lines_bind; [apply all_lines_lift | intros l].
    apply all_lines_bind; [apply all_lines_yield, HP | intros _; exact IH].
Qed.

Lemma all_lines_render (P : Line -> Prop) (hook : Hook) (j : Normalized)
  (config : Config) (flag : bool) :
  (forall s, P (message s flag)) ->
  all_lines P (render hook j config flag).
Proof.
  intros HP. unfold render_lines.
  apply all_lines_bind.
  { unfold all_lines. rewrite summary_line_yields_nothing. constructor. }
  intros s. apply all_lines_bind; [apply all_lines_yield, HP | intros _].
  apply all_lines_bind; [apply all_lines_lift | intros cv].
  apply all_lines_bind; [apply all_lines_lift | intros cs].
  now apply all_lines_commits.
Qed.

(** C7: every line the dispatch yields, the summary line and the commit
    lines alike, has [strip] equal to the negation of
    [config.use_colors], taken as true when the key is not set. *)
Theorem strip_flag_on_every_line (hook : Hook) (p : option string) :
  Forall (fun l => strip l = negb (get_default (use_colors (config_or_empty hook)) true))
    (lines_of (fst (handle hook p))).
Proof.
  change (all_lines
            (fun l => strip l = negb (get_default (use_colors (config_or_empty hook)) true))
            (handle hook p)).
  unfold handle_request. destruct p as [body |]; [| apply all_lines_ret].
  destruct (String.eqb body ""); [apply all_lines_ret |].
  apply all_lines_bind; [apply all_lines_lift | intros payload].
  apply all_lines_bind; [apply all_lines_lift | intros j].
  apply all_lines_bind; [apply all_lines_lift | intros cv].
  destruct (negb (Py.truthy cv)); [apply all_lines_ret |].
  apply all_lines_bind; [apply all_lines_lift | intros drop].
  destruct drop; [apply all_lines_ret |].
  apply all_lines_render. reflexivity.
Qed.

(** *** The summary line and its link *)

Lemma string_app_assoc (a b c : string) : (a ++ b) ++ c = a ++ b ++ c.
Proof. induction a as [| x a IH]; simpl; [reflexivity | now rewrite IH]. Qed.

Lemma join_append_item (sep x : string) (items : list string) :
  items <> [] ->
  Py.join sep (append_item items x) = Py.join sep items ++ sep ++ x.
Proof.
  unfold append_item. induction items as [| a rest IH]; [congruence |].
  intros _. destruct rest as [| b r]; [reflexivity |].
  change (a ++ sep ++ Py.join sep ((b :: r) ++ [x])
          = (a ++ sep ++ Py.join sep (b :: r)) ++ sep ++ x).
  rewrite IH by discriminate. now rewrite !string_app_assoc.
Qed.

Lemma format_value_str (s : string) :
  format_value container_text (JStr s) = s.
Proof. reflexivity. Qed.

(** C8: a summary line that is built ends, inside its closing colour
    pair, with what the shortener returns for the text of [canon_url]
    followed by the text of [repository.absolute_url] and by commits/;
    the shortener is called once, with that link. *)
Theorem summary_line_ends_with_short_link (hook : Hook) (j : Normalized)
  (config : Config) (t : list Event) (s : string) :
  _make_summary_line colors shorten_url container_text hook j config
  = (t, Ok s) ->
  exists canon_url repository absolute_url before,
    Py.getitem (original j) "canon_url" = Ok canon_url
    /\ Py.getitem (original j) "repository" = Ok repository
    /\ Py.getitem repository "absolute_url" = Ok absolute_url
    /\ let link := format_value container_text canon_url
                     ++ format_value container_text absolute_url
                     ++ "commits/" in
       t = [Shorten link]
       /\ shortened t = [link]
       /\ s = before ++ " " ++ LIGHT_GREY colors ++ shorten_url link
                ++ GREY colors.
Proof.
  intros H.
  destruct (summary_line_cases hook j config)
    as [[e He] | (c & r & a & items & Hc & Hr & Ha & Hrun & Hne)].
  - rewrite He in H. discriminate.
  - cbv zeta in Hrun. rewrite Hrun in H. inversion H; subst t s; clear H.
    exists c, r, a, (Py.join " " items). repeat (split; [assumption |]).
    cbv zeta. do 2 (split; [reflexivity |]). now apply join_append_item.
Qed.

(** On any run, raising or not, the shortener is called at most once. *)
Lemma summary_line_shortens_at_most_once (hook : Hook) (j : Normalized)
  (config : Config) :
  List.length
    (shortened (fst (_make_summary_line colors shorten_url container_text
                       hook j config))) <= 1.
Proof.
  destruct (summary_line_cases hook j config)
    as [[e He] | (c & r & a & items & _ & _ & _ & Hrun & _)];
    cbv zeta in *; [rewrite He | rewrite Hrun]; simpl; lia.
Qed.

(** *** One summary line, then a line for each commit *)

Lemma has_key_get (d : list (string * json)) (k : string) :
  has_key d k = true -> exists v, Py.dict_get d k = Some v.
Proof. unfold has_key. destruct (Py.dict_get d k); [eauto | discriminate]. Qed.

Lemma commit_line_ok (hook : Hook) (j : Normalized) (commit : json)
  (d r : list (string * json)) :
  original j = JObj d ->
  Py.dict_get d "repository" = Some (JObj r) ->
  has_key r "name" = true ->
  commit_renderable
    (get_default (show_raw_author (config_or_empty hook)) false) commit = true ->
  exists t, _make_commit_line colors container_text hook j commit = Ok t.
Proof.
  intros Ho Hr Hn Hc. unfold _make_commit_line. rewrite Ho. simpl.
  rewrite Hr. simpl. apply has_key_get in Hn. destruct Hn as [nm Hn].
  rewrite Hn. simpl.
  unfold commit_renderable in Hc. apply andb_prop in Hc. destruct Hc as [_ Hc].
  destruct commit as [| | | | | c]; try discriminate.
  apply andb_prop in Hc. destruct Hc as [Hc Hm].
  apply andb_prop in Hc. destruct Hc as [Ha Hnode].
  apply has_key_get in Ha. destruct Ha as [a Ha]. simpl. rewrite Ha. simpl.
  destruct (Py.dict_get c "node") as [[| | | node | |] |]; try discriminate.
  simpl.
  destruct (Py.dict_get c "message") as [[| | | msg | |] |]; try discriminate.
  simpl. eauto.
Qed.

Lemma yield_commit_lines_ok (hook : Hook) (j : Normalized) (flag : bool)
  (cs : list json) :
  Forall (fun c => exists t,
              _make_commit_line colors container_text hook j c = Ok t) cs ->
  exists texts,
    Forall2 (fun c t =>
               _make_commit_line colors container_text hook j c = Ok t)
      cs texts
    /\ yield_commit_lines colors container_text hook j flag cs
       = (map (fun t => Yield (message t flag)) texts, Ok tt).
Proof.
  induction 1 as [| c cs [t Ht] _ (texts & HF & IH)].
  - exists []. split; [constructor | reflexivity].
  - exists (t :: texts). split; [now constructor |].
    cbn [yield_commit_lines]. rewrite Ht, bind_lift_ok, IH. reflexivity.
Qed.

Lemma last_item_in (c : json) (cs : list json) :
  exists x, Py.last_item (JArr (c :: cs)) = Ok x /\ In x (c :: cs).
Proof.
  unfold Py.last_item.
  destruct (rev (c :: cs)) as [| x l] eqn:Hrev.
  - apply (f_equal (@List.length json)) in Hrev.
    rewrite length_rev in Hrev. discriminate.
  - exists x. split; [reflexivity |]. apply in_rev. rewrite Hrev. now left.
Qed.

(** C4: for a payload with every field the line builders read, [N]
    commits with [N] positive, and a branch the filter lets through,
    the dispatch returns after yielding [N + 1] lines: the summary
    line, then the line of each commit in payload order. *)
Theorem one_line_per_commit_after_summary (hook : Hook) (body : string)
  (payload : json) (cs : list json) :
  body <> "" ->
  loads body = Ok payload ->
  renderable hook payload = true ->
  commits_of payload = cs ->
  cs <> [] ->
  branch_unwanted (normalized_of payload) (config_or_empty hook) = Ok false ->
  exists j link summary texts,
    simplify_payload payload = Ok j
    /\ _make_summary_line colors shorten_url container_text hook j
         (config_or_empty hook) = ([Shorten link], Ok summary)
    /\ Forall2 (fun c t =>
                  _make_commit_line colors container_text hook j c = Ok t)
         cs texts
    /\ handle hook (Some body)
       = (Shorten link
            :: Yield (message summary (strip_of hook))
            :: map (fun t => Yield (message t (strip_of hook))) texts,
          Ok tt)
    /\ lines_of (fst (handle hook (Some body)))
       = message summary (strip_of hook)
           :: map (fun t => message t (strip_of hook)) texts
    /\ List.length (lines_of (fst (handle hook (Some body))))
       = S (List.length cs).
Proof.
  intros Hne Hl Hr Hcs Hnil Hu.
  destruct (files_shape_total _ (renderable_files_shape _ _ Hr)) as [j Hs].
  rewrite (normalized_of_ok _ _ Hs) in Hu.
  pose proof (simplify_original _ _ Hs) as Ho.
  unfold renderable in Hr.
  destruct payload as [| | | | | d]; try discriminate.
  apply andb_prop in Hr. destruct Hr as [Hr Hrepo].
  apply andb_prop in Hr. destruct Hr as [Hc Hcanon].
  destruct (Py.dict_get d "commits") as [[| | | | cs' |] |] eqn:Hdc;
    try discriminate.
  assert (cs' = cs) by (unfold commits_of in Hcs; simpl in Hcs;
                        now rewrite Hdc in Hcs).
  subst cs'.
  destruct (Py.dict_get d "repository") as [[| | | | | r] |] eqn:Hdr;
    try discriminate.
  apply andb_prop in Hrepo. destruct Hrepo as [Hname Habs].
  pose proof Hname as Hname'.
  apply has_key_get in Hname. destruct Hname as [nm Hnm].
  apply has_key_get in Habs. destruct Habs as [au Hau].
  apply has_key_get in Hcanon. destruct Hcanon as [cu Hcu].
  destruct cs as [| c0 cs0]; [congruence |].
  destruct (last_item_in c0 cs0) as (lc & Hlast & Hin).
  rewrite forallb_forall in Hc.
  assert (Hnode : exists n, Py.getitem lc "node" = Ok n).
  { specialize (Hc _ Hin). unfold commit_renderable in Hc.
    apply andb_prop in Hc. destruct Hc as [_ Hc].
    destruct lc as [| | | | | dl]; try discriminate.
    apply andb_prop in Hc. destruct Hc as [Hc _].
    apply andb_prop in Hc. destruct Hc as [_ Hc]. simpl.
    destruct (Py.dict_get dl "node"); [eauto | discriminate]. }
  destruct Hnode as [nd Hnd].
  assert (Hsum : exists summary,
             _make_summary_line colors shorten_url container_text hook j
               (config_or_empty hook)
             = ([Shorten (format_value container_text cu
                            ++ format_value container_text au ++ "commits/")],
                Ok summary)).
  { unfold _make_summary_line. rewrite Ho.
    repeat (cbn [Py.getitem Py.len];
            rewrite ?Hdr, ?Hdc, ?Hcu, ?Hnm, ?Hau, ?Hlast, ?Hnd;
            rewrite bind_lift_ok).
    eexists. reflexivity. }
  destruct Hsum as [summary Hsum].
  destruct (yield_commit_lines_ok hook j (strip_of hook) (c0 :: cs0))
    as (texts & HF & Hy).
  { apply Forall_forall. intros c Hc'.
    apply (commit_line_ok hook j c d r Ho Hdr Hname'). now apply Hc. }
  assert (Hrun : handle hook (Some body)
                 = (Shorten (format_value container_text cu
                               ++ format_value container_text au ++ "commits/")
                      :: Yield (message summary (strip_of hook))
                      :: map (fun t => Yield (message t (strip_of hook))) texts,
                    Ok tt)).
  { rewrite (handle_request_decoded _ _ _ _ Hne Hl Hs).
    cbn [Py.getitem]. rewrite Hdc, bind_lift_ok. cbn [Py.truthy negb].
    rewrite Hu, bind_lift_ok. unfold render_lines.
    rewrite Hsum, Ho. cbn [Py.getitem]. rewrite Hdc.
    unfold eff_bind at 1. cbn [yield]. rewrite !bind_lift_ok.
    cbn [Py.iter]. rewrite bind_lift_ok, Hy. reflexivity. }
  exists j, (format_value container_text cu
               ++ format_value container_text au ++ "commits/"), summary, texts.
  split; [exact Hs |]. split; [exact Hsum |]. split; [exact HF |]. split; [exact Hrun |].
  assert (Hlines : lines_of (fst (handle hook (Some body)))
                   = message summary (strip_of hook)
                       :: map (fun t => message t (strip_of hook)) texts).
  { rewrite Hrun. cbn [fst lines_of flat_map app]. f_equal.
    clear. induction texts as [| t ts IH]; [reflexivity |].
    cbn [map flat_map app]. now rewrite IH. }
  split; [exact Hlines |].
  rewrite Hlines. cbn [List.length]. rewrite length_map.
  f_equal. symmetry. apply (Forall2_length HF).
Qed.

End Dispatch.

(** ** The hook on concrete requests *)

Ltac by_run := vm_compute; reflexivity.

Ltac not_blank :=
  let H := fresh in intro H; vm_compute in H; discriminate H.

(** Against C1 as the specification words it: the body [{] is not JSON, and consuming the
    dispatch raises [ValueError] instead of ending with no lines. *)
Lemma unparsable_body_raises :
  Json.json_loads "{" = Raise ValueError
  /\ handle_request mirc same_url no_text Json.json_loads plain_hook
       (Some "{") = ([], Raise ValueError)
  /\ handle_request mirc same_url no_text Json.json_loads plain_hook
       (Some "{") <> ([], Ok tt).
Proof. repeat split; try by_run. vm_compute. discriminate. Qed.

Lemma malformed_body_propagates_at_open_brace :
  "{" <> ""
  /\ Json.json_loads "{" = Raise ValueError
  /\ handle_request mirc same_url no_text Json.json_loads plain_hook
       (Some "{") = ([], Raise ValueError).
Proof.
  split; [discriminate |]. split; [by_run |].
  apply (malformed_body_propagates mirc same_url no_text Json.json_loads
           plain_hook "{" ValueError); [discriminate | by_run].
Defined.

(** C2: a payload without the key commits is accepted by the
    normaliser, and the dispatch then raises [KeyError] on
    [original['commits']]; with an empty list of commits it ends with
    no lines. *)
Theorem absent_commits_key_raises :
  simplify_payload no_commits_payload
  = Ok (mkNormalized JNull JNull (JStr "tk") empty_files no_commits_payload)
  /\ handle_request mirc same_url no_text Json.json_loads plain_hook
       (Some (Json.encode no_commits_payload)) = ([], Raise KeyError)
  /\ handle_request mirc same_url no_text Json.json_loads plain_hook
       (Some (Json.encode (sample_payload []))) = ([], Ok tt).
Proof. repeat split; by_run. Qed.

Lemma branch_filter_gate_master :
  wanted_branches "Master, dev" = ["master"; "dev"]
  /\ handle_request mirc same_url no_text Json.json_loads
       (filter_hook "Master, dev")
       (Some (Json.encode (sample_payload (one_commit "MASTER"))))
     = render_lines mirc same_url no_text (filter_hook "Master, dev")
         (normalized_of (sample_payload (one_commit "MASTER")))
         (config_or_empty (filter_hook "Master, dev")) false
  /\ handle_request mirc same_url no_text Json.json_loads
       (filter_hook "Master, dev")
       (Some (Json.encode (sample_payload (one_commit "feature-x"))))
     = ([], Ok tt).
Proof.
  split; [by_run |]. split.
  - apply (branch_filter_gate mirc same_url no_text Json.json_loads
             (filter_hook "Master, dev")
             (Json.encode (sample_payload (one_commit "MASTER")))
             (sample_payload (one_commit "MASTER"))
             (normalized_of (sample_payload (one_commit "MASTER")))
             "Master, dev" "MASTER");
      try by_run; try not_blank; discriminate.
  - apply (branch_filter_gate mirc same_url no_text Json.json_loads
             (filter_hook "Master, dev")
             (Json.encode (sample_payload (one_commit "feature-x")))
             (sample_payload (one_commit "feature-x"))
             (normalized_of (sample_payload (one_commit "feature-x")))
             "Master, dev" "feature-x");
      try by_run; try not_blank; discriminate.
Defined.

Lemma three_commits_four_lines :
  renderable plain_hook (sample_payload three_commits) = true
  /\ List.length three_commits = 3
  /\ List.length
       (lines_of
          (fst (handle_request mirc same_url no_text Json.json_loads plain_hook
                  (Some (Json.encode (sample_payload three_commits)))))) = 4.
Proof.
  split; [by_run |]. split; [reflexivity |].
  destruct (one_line_per_commit_after_summary mirc same_url no_text
              Json.json_loads plain_hook
              (Json.encode (sample_payload three_commits))
              (sample_payload three_commits)
              three_commits
              ltac:(not_blank) ltac:(by_run) ltac:(by_run)
              ltac:(by_run) ltac:(discriminate) ltac:(by_run))
    as (j & link & summary & texts & _ & _ & _ & _ & _ & Hlen).
  exact Hlen.
Defined.

Lemma branch_last_write_wins_main :
  map branch_of three_commits = [JStr "dev"; JStr ""; JStr "main"]
  /\ simplify_payload (sample_payload three_commits)
     = Ok (normalized_of (sample_payload three_commits))
  /\ branch (normalized_of (sample_payload three_commits)) = JStr "main".
Proof.
  split; [by_run |]. split; [by_run |].
  apply (branch_last_write_wins (sample_payload three_commits)
           (normalized_of (sample_payload three_commits))).
  by_run.
Defined.

(** Against C6 as the specification words it: an entry typed all puts its name in the set
    all and in none of the three typed sets. *)
Lemma entry_typed_all_outside_union :
  simplify_payload all_typed_payload
  = Ok (mkNormalized (JStr "dev") JNull (JStr "tk")
          (mkFiles [JStr "x.py"] [] [] []) all_typed_payload)
  /\ Py.set_mem (JStr "x.py")
       (f_all (files (normalized_of all_typed_payload))) = true
  /\ Py.set_mem (JStr "x.py")
       (f_added (files (normalized_of all_typed_payload)))
     || Py.set_mem (JStr "x.py")
          (f_removed (files (normalized_of all_typed_payload)))
     || Py.set_mem (JStr "x.py")
          (f_modified (files (normalized_of all_typed_payload))) = false.
Proof. repeat split; by_run. Qed.

Lemma file_sets_are_unions_three_commits :
  simplify_payload (sample_payload three_commits)
  = Ok (normalized_of (sample_payload three_commits))
  /\ forall x,
       Py.set_mem x (f_all (files (normalized_of
                                     (sample_payload three_commits))))
       = Py.set_mem x (f_added (files (normalized_of
                                         (sample_payload three_commits))))
         || Py.set_mem x (f_removed (files (normalized_of
                                              (sample_payload three_commits))))
         || Py.set_mem x (f_modified (files (normalized_of
                                               (sample_payload three_commits))))
         || Py.set_mem x
              (declared "all" (entries_of (commits_of
                                             (sample_payload three_commits)))).
Proof.
  split; [by_run |].
  apply (file_sets_are_unions (sample_payload three_commits)
           (normalized_of (sample_payload three_commits))).
  by_run.
Defined.

Lemma summary_line_link_sample :
  exists before,
    fst (_make_summary_line mirc same_url no_text plain_hook
           (normalized_of (sample_payload three_commits)) empty_config)
    = [Shorten "https://bitbucket.org/tktech/notifico/commits/"]
    /\ snd (_make_summary_line mirc same_url no_text plain_hook
              (normalized_of (sample_payload three_commits)) empty_config)
       = Ok (before ++ " " ++ LIGHT_GREY mirc
               ++ "https://bitbucket.org/tktech/notifico/commits/"
               ++ GREY mirc).
Proof.
  destruct (summary_line_ends_with_short_link mirc same_url no_text plain_hook
              (normalized_of (sample_payload three_commits)) empty_config
              (fst (_make_summary_line mirc same_url no_text plain_hook
                      (normalized_of (sample_payload three_commits))
                      empty_config))
              (match snd (_make_summary_line mirc same_url no_text plain_hook
                            (normalized_of (sample_payload three_commits))
                            empty_config) with
               | Ok s => s
               | Raise _ => ""
               end))
    as (cu & repo & au & before & Hcu & Hrepo & Hau & Ht & _ & Hs);
    [by_run |].
  vm_compute in Hcu. inversion Hcu; subst cu; clear Hcu.
  vm_compute in Hrepo. inversion Hrepo; subst repo; clear Hrepo.
  vm_compute in Hau. inversion Hau; subst au; clear Hau.
  exists before. split; [by_run |].
  replace (snd (_make_summary_line mirc same_url no_text plain_hook
                  (normalized_of (sample_payload three_commits)) empty_config))
    with (Ok (match snd (_make_summary_line mirc same_url no_text plain_hook
                            (normalized_of (sample_payload three_commits))
                            empty_config) with
              | Ok s => s
              | Raise _ => ""
              end)) by by_run.
  f_equal. exact Hs.
Defined.

Lemma unset_branch_passes_filter_sample :
  branch (normalized_of (sample_payload (one_commit ""))) = JNull
  /\ handle_request mirc same_url no_text Json.json_loads (filter_hook "master")
       (Some (Json.encode (sample_payload (one_commit ""))))
     = render_lines mirc same_url no_text (filter_hook "master")
         (normalized_of (sample_payload (one_commit "")))
         (config_or_empty (filter_hook "master")) false.
Proof.
  split; [by_run |].
  apply (unset_branch_passes_filter mirc same_url no_text Json.json_loads
           (filter_hook "master")
           (Json.encode (sample_payload (one_commit "")))
           (sample_payload (one_commit ""))
           (JArr (one_commit ""))
           (normalized_of (sample_payload (one_commit ""))));
    try by_run; not_blank.
Defined.

(** Against C10 as the specification words it: the entry has a type among the three and
    the key file, its name is a list, and the normaliser raises
    [TypeError]. *)
Lemma list_named_file_raises :
  files_shape file_keys_ok list_named_payload = true
  /\ simplify_payload list_named_payload = Raise TypeError.
Proof. split; by_run. Qed.

Lemma simplify_payload_total_three_commits :
  files_shape file_ok (sample_payload three_commits) = true
  /\ exists j, simplify_payload (sample_payload three_commits) = Ok j.
Proof.
  split; [by_run |].
  apply (simplify_payload_total (sample_payload three_commits)). by_run.
Defined.

Example strip_flag_without_colours :
  map strip
    (lines_of
       (fst (handle_request mirc same_url no_text Json.json_loads
               (mkHook (Some (mkConfig None (Some false) None None)))
               (Some (Json.encode (sample_payload three_commits))))))
  = [true; true; true; true].
Proof. by_run. Qed.


(** * Further properties *)

(** ** Strings *)

Lemma lower_char_idempotent (c : ascii) :
  Py.lower_char (Py.lower_char c) = Py.lower_char c.
Proof. destruct c as [[] [] [] [] [] [] [] []]; reflexivity. Qed.

Lemma is_space_lower_char (c : ascii) :
  Py.is_space (Py.lower_char c) = Py.is_space c.
Proof. destruct c as [[] [] [] [] [] [] [] []]; reflexivity. Qed.

Lemma lower_idempotent (s : string) : Py.lower (Py.lower s) = Py.lower s.
Proof.
  induction s as [| c s IH]; simpl; [reflexivity |].
  now rewrite lower_char_idempotent, IH.
Qed.

Lemma lower_app (a b : string) : Py.lower (a ++ b) = Py.lower a ++ Py.lower b.
Proof. induction a as [| c a IH]; simpl; [reflexivity | now rewrite IH]. Qed.

Lemma all_space_lower (s : string) : all_space (Py.lower s) = all_space s.
Proof.
  induction s as [| c s IH]; simpl; [reflexivity |].
  now rewrite is_space_lower_char, IH.
Qed.

Lemma lstrip_lower (s : string) : Py.lstrip (Py.lower s) = Py.lower (Py.lstrip s).
Proof.
  induction s as [| c s IH]; simpl; [reflexivity |].
  rewrite is_space_lower_char. destruct (Py.is_space c); [exact IH | reflexivity].
Qed.

Lemma rstrip_lower (s : string) : Py.rstrip (Py.lower s) = Py.lower (Py.rstrip s).
Proof.
  induction s as [| c s IH]; simpl; [reflexivity |].
  rewrite IH, is_space_lower_char.
  destruct (Py.rstrip s); simpl; [destruct (Py.is_space c) |]; reflexivity.
Qed.

Lemma strip_lower (s : string) : Py.strip (Py.lower s) = Py.lower (Py.strip s).
Proof. unfold Py.strip. now rewrite lstrip_lower, rstrip_lower. Qed.

(** What [rstrip] returns is empty or ends with a character that is not
    white space; what [lstrip] returns is empty or starts with one. *)
Lemma rstrip_idempotent (s : string) : Py.rstrip (Py.rstrip s) = Py.rstrip s.
Proof.
  induction s as [| c s IH]; simpl; [reflexivity |].
  destruct (Py.rstrip s) as [| d r] eqn:Hr.
  - destruct (Py.is_space c) eqn:Hc; simpl; [reflexivity | now rewrite Hc].
  - simpl in *. now rewrite IH.
Qed.

Lemma lstrip_head (s : string) :
  match Py.lstrip s with
  | EmptyString => True
  | String c _ => Py.is_space c = false
  end.
Proof.
  induction s as [| c s IH]; simpl; [exact I |].
  destruct (Py.is_space c) eqn:Hc; [exact IH | exact Hc].
Qed.

Lemma rstrip_head (c : ascii) (s : string) :
  Py.is_space c = false ->
  exists r, Py.rstrip (String c s) = String c r.
Proof.
  intros Hc. simpl. destruct (Py.rstrip s); [rewrite Hc |]; eauto.
Qed.

Lemma lstrip_strip (s : string) : Py.lstrip (Py.strip s) = Py.strip s.
Proof.
  unfold Py.strip. pose proof (lstrip_head s) as H.
  destruct (Py.lstrip s) as [| c r]; [reflexivity |].
  destruct (rstrip_head c r H) as [r' ->]. simpl. now rewrite H.
Qed.

Lemma strip_idempotent (s : string) : Py.strip (Py.strip s) = Py.strip s.
Proof.
  unfold Py.strip at 1. rewrite lstrip_strip. unfold Py.strip.
  apply rstrip_idempotent.
Qed.

Lemma lstrip_spaces (w s : string) :
  all_space w = true -> Py.lstrip (w ++ s) = Py.lstrip s.
Proof.
  induction w as [| c w IH]; simpl; [reflexivity |]. intros H.
  apply andb_prop in H. destruct H as [Hc Hw]. rewrite Hc. now apply IH.
Qed.

Lemma lstrip_all_space (w : string) : all_space w = true -> Py.lstrip w = "".
Proof.
  induction w as [| c w IH]; simpl; [reflexivity |]. intros H.
  apply andb_prop in H. destruct H as [Hc Hw]. rewrite Hc. now apply IH.
Qed.

Lemma rstrip_spaces (w : string) : all_space w = true -> Py.rstrip w = "".
Proof.
  induction w as [| c w IH]; simpl; [reflexivity |]. intros H.
  apply andb_prop in H. destruct H as [Hc Hw]. now rewrite (IH Hw), Hc.
Qed.

Lemma rstrip_app_spaces (s w : string) :
  all_space w = true -> Py.rstrip (s ++ w) = Py.rstrip s.
Proof.
  intros Hw. induction s as [| c s IH]; simpl.
  - now apply rstrip_spaces.
  - now rewrite IH.
Qed.

Lemma strip_app_spaces (s w : string) :
  all_space w = true -> Py.strip (s ++ w) = Py.strip s.
Proof.
  intros Hw. unfold Py.strip. induction s as [| c s IH]; simpl.
  - now rewrite (lstrip_all_space w Hw).
  - destruct (Py.is_space c); [exact IH |].
    change (String c (s ++ w)) with (String c s ++ w).
    now apply rstrip_app_spaces.
Qed.

(** White space around a string does not change what [strip] returns. *)
Lemma strip_padded (w1 s w2 : string) :
  all_space w1 = true -> all_space w2 = true ->
  Py.strip (w1 ++ s ++ w2) = Py.strip s.
Proof.
  intros H1 H2. unfold Py.strip at 1. rewrite lstrip_spaces by assumption.
  now apply strip_app_spaces.
Qed.

(** ** Salts and hook keys *)

Lemma digit_standard (i : N) :
  (i < 64)%N -> Base64.standard_char (Base64.digit i) = true.
Proof.
  intros H. unfold Base64.digit.
  assert (Hn : (N.to_nat i < 64)%nat) by lia.
  generalize dependent (N.to_nat i). clear. intros n Hn.
  do 64 (destruct n as [| n]; [reflexivity |]). lia.
Qed.

Lemma translate_urlsafe (c : ascii) :
  Base64.standard_char c = true -> Base64.urlsafe_char (Base64.translate c) = true.
Proof.
  destruct c as [[] [] [] [] [] [] [] []]; vm_compute; intros H;
    first [reflexivity | discriminate H].
Qed.

Lemma translate_all_urlsafe (s : string) :
  Base64.all_chars Base64.standard_char s = true ->
  Base64.all_chars Base64.urlsafe_char (Base64.translate_all s) = true.
Proof.
  induction s as [| c s IH]; simpl; [reflexivity |]. intros H.
  apply andb_prop in H. destruct H as [Hc Hs].
  now rewrite (translate_urlsafe c Hc), IH.
Qed.

Lemma translate_all_length (s : string) :
  String.length (Base64.translate_all s) = String.length s.
Proof. induction s as [| c s IH]; simpl; congruence. Qed.

(** Whole groups of three bytes are encoded without padding. *)
Lemma b64encode_triples (k : nat) :
  forall s,
    String.length s = 3 * k ->
    String.length (Base64.b64encode s) = 4 * k
    /\ Base64.all_chars Base64.standard_char (Base64.b64encode s) = true.
Proof.
  induction k as [| k IH]; intros s Hs.
  - destruct s; [split; reflexivity | discriminate].
  - destruct s as [| a [| b [| c rest]]]; try (simpl in Hs; lia).
    destruct (IH rest) as [Hlen Hall]; [simpl in Hs; lia |].
    pose proof (N_ascii_bounded a). pose proof (N_ascii_bounded b).
    pose proof (N_ascii_bounded c).
    cbn [Base64.b64encode]. cbv zeta. cbn [String.length Base64.all_chars].
    rewrite Hlen, Hall. split; [lia |].
    rewrite !digit_standard; try reflexivity;
      try (apply N.mod_lt; discriminate).
    apply N.Div0.div_lt_upper_bound. lia.
Qed.

(** X13: the salt of a user is eight characters of the standard base64
    alphabet, without padding, and is the encoding of the first six of
    the eight bytes drawn. *)
Theorem create_salt_shape (urandom8 : string) :
  String.length urandom8 = 8 ->
  String.length (User._create_salt urandom8) = 8
  /\ Base64.all_chars Base64.standard_char (User._create_salt urandom8) = true
  /\ User._create_salt urandom8 = Base64.b64encode (substring 0 6 urandom8).
Proof.
  intros H.
  assert (Heq : User._create_salt urandom8
                = Base64.b64encode (substring 0 6 urandom8)).
  { unfold User._create_salt.
    do 8 (destruct urandom8 as [| ? urandom8]; [discriminate H |]).
    destruct urandom8; [reflexivity | discriminate H]. }
  assert (H6 : String.length (substring 0 6 urandom8) = 3 * 2).
  { do 8 (destruct urandom8 as [| ? urandom8]; [discriminate H |]).
    reflexivity. }
  destruct (b64encode_triples 2 _ H6) as [Hlen Hall].
  rewrite Heq. auto.
Qed.

(** X14: the key of a hook is twenty-four URL-safe characters, without
    padding, and is the encoding of the first eighteen of the
    twenty-four bytes drawn. *)
Theorem new_key_shape (urandom24 : string) :
  String.length urandom24 = 24 ->
  String.length (HookRow._new_key urandom24) = 24
  /\ Base64.all_chars Base64.urlsafe_char (HookRow._new_key urandom24) = true
  /\ HookRow._new_key urandom24
     = Base64.urlsafe_b64encode (substring 0 18 urandom24).
Proof.
  intros H.
  assert (Heq : HookRow._new_key urandom24
                = Base64.urlsafe_b64encode (substring 0 18 urandom24)).
  { unfold HookRow._new_key, Base64.urlsafe_b64encode.
    do 24 (destruct urandom24 as [| ? urandom24]; [discriminate H |]).
    destruct urandom24; [reflexivity | discriminate H]. }
  assert (H18 : String.length (substring 0 18 urandom24) = 3 * 6).
  { do 24 (destruct urandom24 as [| ? urandom24]; [discriminate H |]).
    reflexivity. }
  destruct (b64encode_triples 6 _ H18) as [Hlen Hall].
  rewrite Heq. unfold Base64.urlsafe_b64encode.
  rewrite translate_all_length, Hlen.
  split; [reflexivity |]. split; [| reflexivity].
  now apply translate_all_urlsafe.
Qed.

(** ** Users and projects *)

Lemma find_first {A} (f : A -> bool) (l : list A) (x : A) :
  In x l -> f x = true -> exists y, find f l = Some y /\ In y l /\ f y = true.
Proof.
  induction l as [| a l IH]; simpl; [tauto |]. intros Hin Hx.
  destruct (f a) eqn:Ha; [exists a; auto |].
  destruct Hin as [-> | Hin]; [congruence |].
  destruct (IH Hin Hx) as (y & Hy & Hyin & Hfy). eauto.
Qed.

Lemma count_find {A} (f : A -> bool) (l : list A) :
  (1 <=? List.length (filter f l))%nat = true <-> find f l <> None.
Proof.
  induction l as [| a l IH]; simpl.
  - split; [discriminate | congruence].
  - destruct (f a); simpl; [split; [discriminate | reflexivity] | exact IH].
Qed.

Section Users.

Variable sha256_hexdigest : string -> string.
Variable table : list User.t.

Local Abbreviation new_user := (User.new sha256_hexdigest).
Local Abbreviation login := (User.login sha256_hexdigest table).

(** X15: what [User.new] stores has no white space at either end of the
    username and of the e-mail address, and no upper-case letter in the
    address. *)
Theorem new_user_is_normalised (username email password urandom8 : string) :
  let u := new_user username email password urandom8 in
  Py.lstrip (User.username u) = User.username u
  /\ Py.rstrip (User.username u) = User.username u
  /\ Py.lstrip (User.email u) = User.email u
  /\ Py.rstrip (User.email u) = User.email u
  /\ Py.lower (User.email u) = User.email u.
Proof.
  cbv zeta. unfold User.new. cbn [User.username User.email].
  repeat split; try apply lstrip_strip;
    try (unfold Py.strip; apply rstrip_idempotent).
  now rewrite <- strip_lower, lower_idempotent.
Qed.

(** X16: a registered user is found by [by_email], and reported by
    [email_exists], under the address it registered with in any case
    and with any white space around it. *)
Theorem by_email_finds_registered
  (username email password urandom8 w1 w2 asked : string) :
  In (new_user username email password urandom8) table ->
  all_space w1 = true ->
  all_space w2 = true ->
  Py.lower asked = Py.lower (w1 ++ email ++ w2) ->
  (exists row,
      User.by_email table asked = Some row
      /\ In row table
      /\ User.email row
         = User.email (new_user username email password urandom8))
  /\ User.email_exists table asked = true.
Proof.
  intros Hin H1 H2 Hasked.
  assert (Hkey : Py.strip (Py.lower asked) = Py.strip (Py.lower email)).
  { rewrite Hasked, !lower_app.
    apply strip_padded; now rewrite all_space_lower. }
  destruct (find_first
              (fun row => String.eqb (User.email row)
                            (Py.strip (Py.lower asked)))
              table _ Hin) as (row & Hfind & Hrow & Heq).
  { rewrite Hkey. apply String.eqb_refl. }
  split.
  - exists row. split; [exact Hfind |]. split; [exact Hrow |].
    apply String.eqb_eq in Heq. now rewrite Heq, Hkey.
  - unfold User.email_exists. apply count_find.
    unfold User.by_email in Hfind. now rewrite Hfind.
Qed.

(** X17: [email_exists] and [username_exists] say yes exactly when
    [by_email] and [by_username] return a row. *)
Theorem exists_iff_lookup (email username : string) :
  (User.email_exists table email = true <-> User.by_email table email <> None)
  /\ (User.username_exists table username = true
      <-> User.by_username table username <> None).
Proof. split; apply count_find. Qed.


(** X19: the user [by_username] finds logs in with the password it
    registered with, also when white space is put around it; [login]
    returns no other row than the one [by_username] finds, and only when
    the stored hash is the hash of the password given. *)
Theorem login_accepts_padded_password
  (asked username email password urandom8 w1 w2 : string) :
  User.by_username table asked
  = Some (new_user username email password urandom8) ->
  all_space w1 = true ->
  all_space w2 = true ->
  login asked (w1 ++ password ++ w2)
  = Some (new_user username email password urandom8)
  /\ (forall given row,
         login asked given = Some row ->
         row = new_user username email password urandom8
         /\ User.password row
            = User._hash_password sha256_hexdigest given (User.salt row)).
Proof.
  intros Hfind H1 H2. unfold User.login. rewrite Hfind. split.
  - unfold User.new at 1 2. cbn [User.password User.salt].
    unfold User._hash_password. rewrite (strip_padded w1 password w2 H1 H2).
    now rewrite String.eqb_refl.
  - intros given row H.
    destruct (String.eqb _ _) eqn:E; [| discriminate].
    inversion H; subst row. split; [reflexivity |]. now apply String.eqb_eq.
Qed.

(** X20: [set_password] changes the salt and the hash and nothing else,
    and the hash it stores is the one [login] computes for the new
    password, with or without white space around it. *)
Theorem set_password_accepts_new (u : User.t) (new_password urandom8 w1 w2 : string) :
  all_space w1 = true ->
  all_space w2 = true ->
  let u' := User.set_password sha256_hexdigest u new_password urandom8 in
  User.username u' = User.username u
  /\ User.email u' = User.email u
  /\ User.salt u' = User._create_salt urandom8
  /\ User.password u'
     = User._hash_password sha256_hexdigest (w1 ++ new_password ++ w2)
         (User.salt u').
Proof.
  intros H1 H2. cbv zeta. unfold User.set_password. cbn.
  repeat split. unfold User._hash_password.
  now rewrite (strip_padded w1 new_password w2 H1 H2).
Qed.

End Users.

(** X21: [Project.new] stores the name without white space at either end,
    keeps no website when none or an empty one is given, and otherwise
    stores the website without white space at either end. *)
Theorem new_project_is_normalised (name : string) (public : bool)
  (website : option string) :
  let p := Project.new name public website in
  Py.lstrip (Project.name p) = Project.name p
  /\ Py.rstrip (Project.name p) = Project.name p
  /\ Project.public p = public
  /\ match website with
     | None => Project.website p = None
     | Some w =>
         if String.eqb w "" then Project.website p = None
         else Project.website p = Some (Py.strip w)
              /\ Py.lstrip (Py.strip w) = Py.strip w
              /\ Py.rstrip (Py.strip w) = Py.strip w
     end.
Proof.
  cbv zeta. unfold Project.new. cbn.
  split; [apply lstrip_strip |].
  split; [unfold Py.strip; apply rstrip_idempotent |].
  split; [reflexivity |].
  destruct website as [w |]; [| reflexivity].
  destruct (String.eqb w ""); [reflexivity |].
  split; [reflexivity |]. split; [apply lstrip_strip |].
  unfold Py.strip. apply rstrip_idempotent.
Qed.

(** ** When the normaliser returns *)

Lemma set_add_hashable (n : json) (s s' : Py.pyset) :
  Py.set_add n s = Ok s' -> Py.hashable n = true.
Proof. unfold Py.set_add. destruct (Py.hashable n); [reflexivity | discriminate]. Qed.

Lemma files_add_hashable (fs fs' : Files) (ty n : json) :
  files_add fs ty n = Ok fs' -> Py.hashable n = true.
Proof.
  unfold files_add. destruct ty as [| | | t | |]; try discriminate.
  destruct (String.eqb t "all");
    [| destruct (String.eqb t "added");
       [| destruct (String.eqb t "removed");
          [| destruct (String.eqb t "modified"); [| discriminate]]]];
    intros H; bind_ok H s Hs; now apply set_add_hashable in Hs.
Qed.

Lemma record_file_accepted (fs fs' : Files) (file_ : json) :
  record_file fs file_ = Ok fs' -> entry_accepted file_ = true.
Proof.
  unfold record_file. intros H.
  bind_ok H ty Hty. bind_ok H n Hn. bind_ok H fs1 H1.
  pose proof (files_add_hashable _ _ _ _ H1) as Hh.
  destruct (files_add_spec _ _ _ _ H1) as (t & -> & Hk & _).
  unfold entry_accepted. destruct file_ as [| | | | | d]; try discriminate.
  simpl in Hty, Hn.
  destruct (Py.dict_get d "type") as [ty |]; [| discriminate].
  destruct (Py.dict_get d "file") as [n' |]; [| discriminate].
  inversion Hty; inversion Hn; subst. now rewrite Hk, Hh.
Qed.

Lemma accepted_record_file (fs : Files) (file_ : json) :
  entry_accepted file_ = true -> exists fs', record_file fs file_ = Ok fs'.
Proof.
  unfold entry_accepted, record_file.
  destruct file_ as [| | | | | d]; try discriminate. simpl.
  destruct (Py.dict_get d "type") as [[| | | t | |] |]; try discriminate.
  destruct (Py.dict_get d "file") as [n |]; [| discriminate].
  intros H. apply andb_prop in H. destruct H as [Ht Hn]. simpl.
  unfold typed_change in Ht. unfold files_add, Py.set_add.
  destruct (String.eqb t "all");
    [| destruct (String.eqb t "added");
       [| destruct (String.eqb t "removed");
          [| destruct (String.eqb t "modified"); [| discriminate]]]];
    rewrite ?Hn; simpl; rewrite ?Hn; simpl; eauto.
Qed.

Lemma record_files_accepted (entries : list json) :
  forall fs,
    (exists fs', record_files fs entries = Ok fs')
    <-> forallb entry_accepted entries = true.
Proof.
  induction entries as [| f rest IH]; simpl; intros fs.
  - split; eauto.
  - split.
    + intros [fs' H]. bind_ok H fs1 H1.
      rewrite (record_file_accepted _ _ _ H1). simpl.
      apply (IH fs1). eauto.
    + intros H. apply andb_prop in H. destruct H as [Hf Hrest].
      destruct (accepted_record_file fs f Hf) as [fs1 H1]. rewrite H1. simpl.
      now apply IH.
Qed.

Lemma record_commit_accepted (acc : Files * json) (commit : json) :
  (exists acc', record_commit acc commit = Ok acc')
  <-> commit_accepted commit = true.
Proof.
  unfold record_commit, commit_accepted.
  destruct commit as [| | | | | d];
    try (split; [intros [acc' H]; discriminate | discriminate]).
  simpl.
  destruct (Py.iter _) as [entries | e]; simpl;
    [| split; [intros [acc' H]; discriminate | discriminate]].
  rewrite <- (record_files_accepted entries (fst acc)). split.
  - intros [acc' H]. bind_ok H fs' Hfs. eauto.
  - intros [fs' H]. rewrite H. simpl. eauto.
Qed.

Lemma record_commits_accepted (commits : list json) :
  forall acc,
    (exists acc', record_commits acc commits = Ok acc')
    <-> forallb commit_accepted commits = true.
Proof.
  induction commits as [| c rest IH]; simpl; intros acc.
  - split; eauto.
  - split.
    + intros [acc' H]. bind_ok H acc1 H1.
      assert (Hc : commit_accepted c = true)
        by (apply (record_commit_accepted acc c); eauto).
      rewrite Hc. simpl. apply (IH acc1). eauto.
    + intros H. apply andb_prop in H. destruct H as [Hc Hrest].
      apply (record_commit_accepted acc c) in Hc. destruct Hc as [acc1 H1].
      rewrite H1. simpl. now apply IH.
Qed.

(** X1: the normaliser returns exactly on the payloads that are a dict
    whose commits, when the key is there, can be iterated and are dicts,
    whose files in turn can be iterated and are dicts with a type among
    all, added, removed and modified and a hashable name; on every
    other payload it raises. *)
Theorem simplify_payload_returns_iff (payload : json) :
  (exists j, simplify_payload payload = Ok j)
  <-> payload_accepted payload = true.
Proof.
  unfold simplify_payload, payload_accepted.
  destruct payload as [| | | | | d];
    try (split; [intros [j H]; discriminate | discriminate]).
  simpl.
  destruct (Py.iter _) as [commits | e]; simpl;
    [| split; [intros [j H]; discriminate | discriminate]].
  rewrite <- (record_commits_accepted commits (empty_files, JNull)). split.
  - intros [j H]. bind_ok H acc Hacc. eauto.
  - intros [acc H]. rewrite H. simpl. eauto.
Qed.

Lemma simplify_payload_returns_iff_sample :
  payload_accepted all_typed_payload = true
  /\ (exists j, simplify_payload all_typed_payload = Ok j)
  /\ payload_accepted list_named_payload = false
  /\ payload_accepted (JArr []) = false.
Proof.
  split; [vm_compute; reflexivity |]. split.
  - apply (simplify_payload_returns_iff all_typed_payload).
    vm_compute. reflexivity.
  - split; vm_compute; reflexivity.
Defined.

(** ** The branch filter *)

Lemma lower_empty (s : string) : Py.lower s = "" -> s = "".
Proof. destruct s; [reflexivity | discriminate]. Qed.

Lemma lower_char_comma (c : ascii) :
  Ascii.eqb (Py.lower_char c) "," = Ascii.eqb c ",".
Proof. destruct c as [[] [] [] [] [] [] [] []]; reflexivity. Qed.

Lemma split_lower (s : string) :
  Py.split "," (Py.lower s) = map Py.lower (Py.split "," s).
Proof.
  induction s as [| c s IH]; [reflexivity |].
  cbn [Py.lower Py.split]. rewrite lower_char_comma, IH.
  destruct (Ascii.eqb c ","); [reflexivity |].
  destruct (Py.split "," s); reflexivity.
Qed.

Lemma wanted_branches_lower (bs : string) :
  wanted_branches (Py.lower bs) = wanted_branches bs.
Proof.
  unfold wanted_branches. rewrite split_lower, map_map.
  apply map_ext. intros e. now rewrite strip_lower, lower_idempotent.
Qed.

Lemma split_free (x : string) :
  free_of "," x = true -> Py.split "," x = [x].
Proof.
  induction x as [| c x IH]; [reflexivity |]. cbn [free_of Py.split].
  intros H. apply andb_prop in H. destruct H as [Hc Hx].
  apply negb_true_iff in Hc. now rewrite Hc, (IH Hx).
Qed.

Lemma split_cons (x rest : string) :
  free_of "," x = true ->
  Py.split "," (x ++ String "," rest) = x :: Py.split "," rest.
Proof.
  induction x as [| c x IH]; [reflexivity |]. cbn [free_of append Py.split].
  intros H. apply andb_prop in H. destruct H as [Hc Hx].
  apply negb_true_iff in Hc. now rewrite Hc, (IH Hx).
Qed.

Lemma split_join (entries : list string) :
  entries <> [] ->
  forallb (free_of ",") entries = true ->
  Py.split "," (Py.join "," entries) = entries.
Proof.
  induction entries as [| x rest IH]; [congruence |]. intros _ H.
  cbn [forallb] in H. apply andb_prop in H. destruct H as [Hx Hrest].
  destruct rest as [| y rest]; [now apply split_free |].
  change (Py.join "," (x :: y :: rest))
    with (x ++ String "," (Py.join "," (y :: rest))).
  rewrite (split_cons _ _ Hx). f_equal. apply IH; [discriminate | exact Hrest].
Qed.

(** X6: a configuration written as entries separated by commas is read
    as those entries, each without the white space around it and in
    lower case, in the same order. *)
Theorem wanted_branches_of_entries (entries : list string) :
  entries <> [] ->
  forallb (free_of ",") entries = true ->
  wanted_branches (Py.join "," entries)
  = map (fun e => Py.lower (Py.strip e)) entries.
Proof.
  intros Hne Hfree. unfold wanted_branches. now rewrite split_join.
Qed.

Lemma wanted_branches_of_entries_sample :
  wanted_branches (Py.join "," ["Master"; " dev "; "Release/1.0"])
  = ["master"; "dev"; "release/1.0"].
Proof.
  apply (wanted_branches_of_entries ["Master"; " dev "; "Release/1.0"]);
    [discriminate | reflexivity].
Defined.

(** X7: the decision of the filter is the same for two branches that
    differ in case only and for two configurations that differ in case
    only. *)
Theorem filter_ignores_case (j j' : Normalized) (config config' : Config)
  (b b' bs bs' : string) :
  branch j = JStr b ->
  branch j' = JStr b' ->
  Py.lower b = Py.lower b' ->
  branches config = Some bs ->
  branches config' = Some bs' ->
  Py.lower bs = Py.lower bs' ->
  branch_unwanted j config = branch_unwanted j' config'.
Proof.
  intros Hb Hb' Hl Hbs Hbs' Hls. unfold branch_unwanted.
  rewrite Hb, Hb', Hbs, Hbs'. cbn [Py.truthy lower_method res_bind].
  replace (String.eqb bs' "") with (String.eqb bs "").
  2:{ destruct (String.eqb_spec bs ""), (String.eqb_spec bs' "");
        try reflexivity; subst; exfalso.
      - simpl in Hls. symmetry in Hls. apply lower_empty in Hls. congruence.
      - simpl in Hls. apply lower_empty in Hls. congruence. }
  replace (String.eqb b' "") with (String.eqb b "").
  2:{ destruct (String.eqb_spec b ""), (String.eqb_spec b' "");
        try reflexivity; subst; exfalso.
      - simpl in Hl. symmetry in Hl. apply lower_empty in Hl. congruence.
      - simpl in Hl. apply lower_empty in Hl. congruence. }
  rewrite <- (wanted_branches_lower bs), <- (wanted_branches_lower bs'), Hl, Hls.
  reflexivity.
Qed.

Lemma filter_ignores_case_sample :
  branch_unwanted (normalized_of (sample_payload (one_commit "DEV")))
    (mkConfig (Some "master,dev") None None None)
  = branch_unwanted (normalized_of (sample_payload (one_commit "dev")))
      (mkConfig (Some "MASTER,Dev") None None None).
Proof.
  apply (filter_ignores_case _ _ _ _ "DEV" "dev" "master,dev" "MASTER,Dev");
    vm_compute; reflexivity.
Defined.

Lemma strip_all_space (w : string) : all_space w = true -> Py.strip w = "".
Proof. intros H. unfold Py.strip. now rewrite (lstrip_all_space w H). Qed.

Lemma in_list_blank (b : string) (entries : list string) :
  b <> "" ->
  forallb all_space entries = true ->
  in_list (Py.lower b) (map (fun e => Py.lower (Py.strip e)) entries) = false.
Proof.
  intros Hb. induction entries as [| e rest IH]; [reflexivity |].
  cbn [forallb map in_list existsb]. intros H.
  apply andb_prop in H. destruct H as [He Hrest].
  rewrite (strip_all_space e He). cbn [Py.lower].
  unfold in_list in IH. rewrite (IH Hrest), orb_false_r.
  apply String.eqb_neq. intros Heq. apply Hb. now apply lower_empty.
Qed.

(** ** More on the dispatch *)

Section MoreDispatch.

Variable colors : Colors.
Variable shorten_url : string -> string.
Variable container_text : json -> string.
Variable loads : string -> Res json.

Local Abbreviation handle :=
  (handle_request colors shorten_url container_text loads).
Local Abbreviation render := (render_lines colors shorten_url container_text).
Local Abbreviation summary_line :=
  (_make_summary_line colors shorten_url container_text).
Local Abbreviation commit_line := (_make_commit_line colors container_text).

(** The commit loop yields lines and nothing else, whether it ends or
    raises. *)
Lemma yield_commit_lines_trace (hook : Hook) (j : Normalized) (flag : bool)
  (cs : list json) :
  exists texts,
    fst (yield_commit_lines colors container_text hook j flag cs)
    = map (fun t => Yield (message t flag)) texts
    /\ List.length texts <= List.length cs.
Proof.
  induction cs as [| c cs (texts & IH & Hlen)].
  - exists []. split; [reflexivity | simpl; lia].
  - cbn [yield_commit_lines].
    destruct (commit_line hook j c) as [t | e].
    + exists (t :: texts). rewrite bind_lift_ok. unfold eff_bind, yield.
      destruct (yield_commit_lines _ _ _ _ _ _) as [t' r']. simpl in IH |- *.
      rewrite IH. split; [reflexivity | lia].
    + exists []. split; [reflexivity | simpl; lia].
Qed.

Lemma render_lines_trace (hook : Hook) (j : Normalized) (config : Config)
  (flag : bool) :
  fst (render hook j config flag) = []
  \/ exists link summary texts,
       summary_line hook j config = ([Shorten link], Ok summary)
       /\ fst (render hook j config flag)
          = Shorten link :: Yield (message summary flag)
              :: map (fun t => Yield (message t flag)) texts.
Proof.
  unfold render_lines.
  destruct (summary_line_cases colors shorten_url container_text hook j config)
    as [[e He] | (cu & r & au & items & _ & _ & _ & Hrun & _)].
  - left. now rewrite He.
  - right. cbv zeta in Hrun. rewrite Hrun.
    set (link := format_value container_text cu
                   ++ format_value container_text au ++ "commits/").
    set (summary := Py.join " " _).
    unfold eff_bind at 1. unfold yield. unfold eff_bind at 1.
    destruct (Py.getitem (original j) "commits") as [cv | e];
      [rewrite bind_lift_ok | exists link, summary, []; split; reflexivity].
    destruct (Py.iter cv) as [cs | e];
      [rewrite bind_lift_ok | exists link, summary, []; split; reflexivity].
    destruct (yield_commit_lines_trace hook j flag cs) as (texts & Ht & _).
    exists link, summary, texts. split; [reflexivity |].
    destruct (yield_commit_lines _ _ _ _ _ _) as [t' r'].
    simpl in Ht |- *. now rewrite Ht.
Qed.

(** X3: whatever the request, the dispatch either does nothing
    observable, or calls the shortener once and then yields the summary
    line followed by commit lines: the shortener is called exactly when
    a line is yielded, once, and before the first line. *)
Theorem dispatch_trace_shape (hook : Hook) (p : option string) :
  fst (handle hook p) = []
  \/ exists link summary texts,
       fst (handle hook p)
       = Shorten link :: Yield (message summary (strip_of hook))
           :: map (fun t => Yield (message t (strip_of hook))) texts.
Proof.
  unfold handle_request. destruct p as [body |]; [| now left].
  destruct (String.eqb body ""); [now left |].
  destruct (loads body) as [payload | e]; [| now left].
  rewrite bind_lift_ok.
  destruct (simplify_payload payload) as [j | e]; [| now left].
  rewrite bind_lift_ok.
  destruct (Py.getitem (original j) "commits") as [cv | e]; [| now left].
  rewrite bind_lift_ok.
  destruct (negb (Py.truthy cv)); [now left |].
  destruct (branch_unwanted j (config_or_empty hook)) as [drop | e];
    [| now left].
  rewrite bind_lift_ok. destruct drop; [now left |].
  destruct (render_lines_trace hook j (config_or_empty hook) (strip_of hook))
    as [H | (link & summary & texts & _ & H)]; [now left | right].
  exists link, summary, texts. exact H.
Qed.

(** X4: the lines yielded before a commit line fails stay yielded: when
    the commits are [done] followed by [bad], the lines of [done] are
    built and the line of [bad] raises [e], the dispatch yields the
    summary line and the lines of [done], then raises [e]. *)
Theorem dispatch_raises_after_partial_output (hook : Hook) (body : string)
  (payload : json) (j : Normalized) (done rest : list json) (bad : json)
  (link summary : string) (texts : list string) (e : Exn) :
  body <> "" ->
  loads body = Ok payload ->
  simplify_payload payload = Ok j ->
  Py.getitem payload "commits" = Ok (JArr (done ++ bad :: rest)) ->
  branch_unwanted j (config_or_empty hook) = Ok false ->
  summary_line hook j (config_or_empty hook) = ([Shorten link], Ok summary) ->
  Forall2 (fun c t => commit_line hook j c = Ok t) done texts ->
  commit_line hook j bad = Raise e ->
  handle hook (Some body)
  = (Shorten link :: Yield (message summary (strip_of hook))
       :: map (fun t => Yield (message t (strip_of hook))) texts,
     Raise e).
Proof.
  intros Hne Hl Hs Hc Hu Hsum Hdone Hbad.
  rewrite (handle_request_decoded colors shorten_url container_text loads
             _ _ _ _ Hne Hl Hs), Hc, bind_lift_ok.
  replace (negb (Py.truthy (JArr (done ++ bad :: rest)))) with false
    by (destruct done; reflexivity).
  rewrite Hu, bind_lift_ok. unfold render_lines.
  rewrite Hsum, (simplify_original _ _ Hs), Hc.
  unfold eff_bind at 1. cbn [yield]. rewrite !bind_lift_ok. cbn [Py.iter].
  rewrite bind_lift_ok.
  assert (Hloop : yield_commit_lines colors container_text hook j
                    (strip_of hook) (done ++ bad :: rest)
                  = (map (fun t => Yield (message t (strip_of hook))) texts,
                     Raise e)).
  { clear - Hdone Hbad. induction Hdone as [| c t cs ts Hc _ IH].
    - cbn [app yield_commit_lines]. now rewrite Hbad.
    - cbn [app yield_commit_lines]. rewrite Hc, bind_lift_ok, IH. reflexivity. }
  rewrite Hloop. reflexivity.
Qed.

(** X5: with [config.branches] not set or empty, every event that has
    commits is rendered, whatever its branch. *)
Theorem blank_filter_renders_all (hook : Hook) (body : string)
  (payload cv : json) (j : Normalized) :
  body <> "" ->
  loads body = Ok payload ->
  simplify_payload payload = Ok j ->
  Py.getitem payload "commits" = Ok cv ->
  Py.truthy cv = true ->
  branches (config_or_empty hook) = None
  \/ branches (config_or_empty hook) = Some "" ->
  handle hook (Some body)
  = render hook j (config_or_empty hook) (strip_of hook).
Proof.
  intros Hne Hl Hs Hc Ht Hb.
  rewrite (handle_request_decoded colors shorten_url container_text loads
             _ _ _ _ Hne Hl Hs), Hc, bind_lift_ok, Ht.
  cbn [negb].
  assert (Hu : branch_unwanted j (config_or_empty hook) = Ok false)
    by (unfold branch_unwanted; destruct Hb as [-> | ->]; reflexivity).
  now rewrite Hu, bind_lift_ok.
Qed.

(** X8: with a filter configured, a branch that is set and is not a
    string makes the dispatch raise [AttributeError] before anything is
    yielded or shortened. *)
Theorem non_string_branch_raises (hook : Hook) (body bs : string)
  (payload : json) (j : Normalized) :
  body <> "" ->
  loads body = Ok payload ->
  simplify_payload payload = Ok j ->
  branches (config_or_empty hook) = Some bs ->
  bs <> "" ->
  branch j <> JNull ->
  (forall b, branch j <> JStr b) ->
  handle hook (Some body) = ([], Raise AttributeError).
Proof.
  intros Hne Hl Hs Hbs Hbne Hset Hstr.
  destruct (simplify_branch_set _ _ Hs Hset) as (Ht & c & cs & Hc).
  rewrite (handle_request_decoded colors shorten_url container_text loads
             _ _ _ _ Hne Hl Hs), Hc, bind_lift_ok.
  cbn [Py.truthy negb]. unfold branch_unwanted. rewrite Hbs, Ht.
  apply String.eqb_neq in Hbne. rewrite Hbne. cbn [negb].
  destruct (branch j) as [| | | b | |]; try reflexivity.
  exfalso. now apply (Hstr b).
Qed.

(** X9: a configuration that is not empty and holds nothing but white
    space and commas drops every event whose branch is a string. *)
Theorem blank_entries_drop_every_branch (hook : Hook) (body bs b : string)
  (payload : json) (j : Normalized) :
  body <> "" ->
  loads body = Ok payload ->
  simplify_payload payload = Ok j ->
  branches (config_or_empty hook) = Some bs ->
  bs <> "" ->
  forallb all_space (Py.split "," bs) = true ->
  branch j = JStr b ->
  handle hook (Some body) = ([], Ok tt).
Proof.
  intros Hne Hl Hs Hbs Hbne Hblank Hb.
  destruct (simplify_branch_set _ _ Hs) as (Ht & c & cs & Hc);
    [rewrite Hb; discriminate |].
  rewrite (handle_request_decoded colors shorten_url container_text loads
             _ _ _ _ Hne Hl Hs), Hc, bind_lift_ok.
  cbn [Py.truthy negb]. unfold branch_unwanted. rewrite Hbs, Ht, Hb.
  apply String.eqb_neq in Hbne. rewrite Hbne. cbn [negb lower_method res_bind].
  unfold wanted_branches. rewrite in_list_blank; [reflexivity | | exact Hblank].
  rewrite Hb in Ht. simpl in Ht. intros ->. discriminate.
Qed.

End MoreDispatch.

Lemma dispatch_raises_after_partial_output_sample :
  List.length
    (lines_of
       (fst (handle_request mirc same_url no_text Json.json_loads plain_hook
               (Some (Json.encode (sample_payload broken_commits)))))) = 2
  /\ snd (handle_request mirc same_url no_text Json.json_loads plain_hook
            (Some (Json.encode (sample_payload broken_commits))))
     = Raise KeyError.
Proof.
  pose proof
    (dispatch_raises_after_partial_output mirc same_url no_text Json.json_loads
       plain_hook (Json.encode (sample_payload broken_commits))
       (sample_payload broken_commits)
       (normalized_of (sample_payload broken_commits))
       [sample_commit "" [] "0123456789ab"]
       [sample_commit "" [] "23456789abcd"]
       anonymous_commit
       "https://bitbucket.org/tktech/notifico/commits/"
       (match snd (_make_summary_line mirc same_url no_text plain_hook
                     (normalized_of (sample_payload broken_commits))
                     empty_config) with
        | Ok s => s
        | Raise _ => ""
        end)
       [match _make_commit_line mirc no_text plain_hook
                (normalized_of (sample_payload broken_commits))
                (sample_commit "" [] "0123456789ab") with
        | Ok s => s
        | Raise _ => ""
        end]
       KeyError
       ltac:(not_blank) ltac:(by_run) ltac:(by_run) ltac:(by_run)
       ltac:(by_run) ltac:(by_run)
       ltac:(repeat constructor; by_run) ltac:(by_run)) as H.
  rewrite H. split; by_run.
Defined.

Lemma blank_filter_renders_all_sample :
  handle_request mirc same_url no_text Json.json_loads (filter_hook "")
    (Some (Json.encode (sample_payload (one_commit "feature-x"))))
  = render_lines mirc same_url no_text (filter_hook "")
      (normalized_of (sample_payload (one_commit "feature-x")))
      (config_or_empty (filter_hook "")) false.
Proof.
  apply (blank_filter_renders_all mirc same_url no_text Json.json_loads
           (filter_hook "")
           (Json.encode (sample_payload (one_commit "feature-x")))
           (sample_payload (one_commit "feature-x"))
           (JArr (one_commit "feature-x"))
           (normalized_of (sample_payload (one_commit "feature-x"))));
    try by_run; try not_blank; try (now right).
Defined.

Lemma non_string_branch_raises_sample :
  branch (normalized_of numbered_branch_payload) = JNum 7
  /\ handle_request mirc same_url no_text Json.json_loads (filter_hook "master")
       (Some (Json.encode numbered_branch_payload))
     = ([], Raise AttributeError).
Proof.
  split; [by_run |].
  apply (non_string_branch_raises mirc same_url no_text Json.json_loads
           (filter_hook "master") (Json.encode numbered_branch_payload)
           "master" numbered_branch_payload
           (normalized_of numbered_branch_payload));
    try by_run; try not_blank; try discriminate; try (intros b; discriminate).
Defined.

Lemma blank_entries_drop_every_branch_sample :
  handle_request mirc same_url no_text Json.json_loads (filter_hook " , ")
    (Some (Json.encode (sample_payload (one_commit "master"))))
  = ([], Ok tt).
Proof.
  apply (blank_entries_drop_every_branch mirc same_url no_text Json.json_loads
           (filter_hook " , ")
           (Json.encode (sample_payload (one_commit "master")))
           " , " "master"
           (sample_payload (one_commit "master"))
           (normalized_of (sample_payload (one_commit "master"))));
    try by_run; try not_blank; discriminate.
Defined.

(** ** The sizes of the file sets *)

Lemma py_eqb_refl (x : json) : Py.hashable x = true -> Py.eqb x x = true.
Proof.
  destruct x as [| [|] | n | s | |]; try discriminate; intros _;
    unfold Py.eqb, Py.as_int;
    try reflexivity; [apply Z.eqb_refl | apply String.eqb_refl].
Qed.

Lemma set_add_members_hashable (n : json) (s s' : Py.pyset) :
  Py.set_add n s = Ok s' ->
  Forall (fun x => Py.hashable x = true) s ->
  Forall (fun x => Py.hashable x = true) s'.
Proof.
  unfold Py.set_add. destruct (Py.hashable n) eqn:Hn; [| discriminate].
  destruct (Py.set_mem n s); intros H Hs; inversion H; subst; [assumption |].
  apply Forall_app. split; [assumption | now repeat constructor].
Qed.

Lemma files_add_members_hashable (fs fs' : Files) (ty n : json) :
  files_add fs ty n = Ok fs' -> members_hashable fs -> members_hashable fs'.
Proof.
  unfold files_add, members_hashable.
  destruct ty as [| | | t | |]; try discriminate.
  destruct (String.eqb t "all");
    [| destruct (String.eqb t "added");
       [| destruct (String.eqb t "removed");
          [| destruct (String.eqb t "modified"); [| discriminate]]]];
    intros H (Ha & Hb & Hc & Hd); bind_ok H s Hs;
    inversion H; subst fs'; clear H; simpl;
    repeat split; try assumption;
    eapply set_add_members_hashable; eassumption.
Qed.

Lemma record_files_members_hashable (entries : list json) :
  forall fs fs',
    record_files fs entries = Ok fs' ->
    members_hashable fs -> members_hashable fs'.
Proof.
  induction entries as [| f rest IH]; simpl; intros fs fs' H Hfs.
  - now inversion H; subst.
  - bind_ok H fs1 H1. eapply IH; [exact H |].
    unfold record_file in H1.
    bind_ok H1 ty Hty. bind_ok H1 n Hn. bind_ok H1 fs2 H2.
    eapply files_add_members_hashable; [exact H1 |].
    eapply files_add_members_hashable; eassumption.
Qed.

Lemma record_commits_members_hashable (commits : list json) :
  forall fs b fs' b',
    record_commits (fs, b) commits = Ok (fs', b') ->
    members_hashable fs -> members_hashable fs'.
Proof.
  induction commits as [| c rest IH]; simpl; intros fs b fs' b' H Hfs.
  - now inversion H; subst.
  - bind_ok H acc Hc. destruct acc as [fs1 b1]. eapply IH; [exact H |].
    unfold record_commit in Hc.
    bind_ok Hc fl Hfl. bind_ok Hc ents Hents. bind_ok Hc fs2 H2.
    bind_ok Hc br Hbr. inversion Hc; subst; clear Hc.
    eapply record_files_members_hashable; eassumption.
Qed.

Lemma set_mem_split (x : json) (t : Py.pyset) :
  Py.set_mem x t = true ->
  exists t1 y t2, t = (t1 ++ y :: t2)%list /\ Py.eqb x y = true.
Proof.
  unfold Py.set_mem. rewrite existsb_exists. intros (y & Hin & Hy).
  apply in_split in Hin. destruct Hin as (t1 & t2 & ->). eauto.
Qed.

(** Members that are pairwise different cannot outnumber a list that has
    an equal for each of them. *)
Lemma distinct_length_le (s : Py.pyset) :
  forall t,
    distinct s = true ->
    (forall x, In x s -> Py.set_mem x t = true) ->
    List.length s <= List.length t.
Proof.
  induction s as [| x r IH]; intros t Hd Hsub; [simpl; lia |].
  cbn [distinct] in Hd. apply andb_prop in Hd. destruct Hd as [Hx Hr].
  apply negb_true_iff in Hx.
  destruct (set_mem_split x t (Hsub x (or_introl eq_refl)))
    as (t1 & y & t2 & -> & Hxy).
  assert (Hle : List.length r <= List.length (t1 ++ t2)%list).
  { apply IH; [exact Hr |]. intros z Hz.
    pose proof (Hsub z (or_intror Hz)) as Hzt.
    rewrite set_mem_app in Hzt |- *. cbn [Py.set_mem existsb] in Hzt.
    destruct (Py.eqb z y) eqn:Hzy; [| exact Hzt].
    exfalso.
    assert (Hxz : Py.eqb x z = true).
    { apply (py_eqb_trans x y z Hxy). now rewrite py_eqb_sym. }
    unfold Py.set_mem in Hx.
    assert (Hex : existsb (Py.eqb x) r = true)
      by (apply existsb_exists; eauto).
    congruence. }
  rewrite !length_app in *. simpl. lia.
Qed.

Lemma members_found (s : Py.pyset) (x : json) :
  Forall (fun y => Py.hashable y = true) s ->
  In x s -> Py.set_mem x s = true.
Proof.
  intros Hs Hin. unfold Py.set_mem. apply existsb_exists. exists x.
  split; [exact Hin |]. apply py_eqb_refl.
  rewrite Forall_forall in Hs. now apply Hs.
Qed.

(** X2: none of the three counters of the summary line exceeds the number
    of different files of the push, and that number does not exceed the
    number of file entries of its commits. *)
Theorem file_counters_bounded (payload : json) (j : Normalized) :
  simplify_payload payload = Ok j ->
  List.length (f_added (files j)) <= List.length (f_all (files j))
  /\ List.length (f_removed (files j)) <= List.length (f_all (files j))
  /\ List.length (f_modified (files j)) <= List.length (f_all (files j))
  /\ List.length (f_all (files j))
     <= List.length (entries_of (commits_of payload)).
Proof.
  intros H.
  destruct (simplify_files_inv _ _ H)
    as (Hall & Hadd & Hrem & Hmod & (dA & dB & dC & dD) & Hty).
  destruct (simplify_payload_inv _ _ H) as (d & fs & _ & _ & Hloop & Hfs & _).
  subst fs.
  assert (Hh : members_hashable (files j)).
  { eapply record_commits_members_hashable; [exact Hloop |].
    repeat split; constructor. }
  destruct Hh as (hA & hB & hC & hD).
  assert (Hsub : forall x,
             Py.set_mem x (f_added (files j))
             || Py.set_mem x (f_removed (files j))
             || Py.set_mem x (f_modified (files j)) = true ->
             Py.set_mem x (f_all (files j)) = true).
  { intros x Hx. rewrite Hall, (members_by_type _ x Hty).
    rewrite <- Hadd, <- Hrem, <- Hmod, Hx. reflexivity. }
  repeat split.
  - apply distinct_length_le; [exact dB |]. intros x Hx. apply Hsub.
    now rewrite (members_found _ x hB Hx).
  - apply distinct_length_le; [exact dC |]. intros x Hx. apply Hsub.
    rewrite (members_found _ x hC Hx). now rewrite orb_true_r.
  - apply distinct_length_le; [exact dD |]. intros x Hx. apply Hsub.
    rewrite (members_found _ x hD Hx). now rewrite orb_true_r.
  - rewrite <- (length_map snd).
    apply distinct_length_le; [exact dA |]. intros x Hx.
    rewrite <- Hall. now apply members_found.
Qed.

Lemma file_counters_bounded_sample :
  List.length (f_added (files (normalized_of (sample_payload three_commits))))
  <= List.length (f_all (files (normalized_of (sample_payload three_commits))))
  /\ List.length (f_all (files (normalized_of (sample_payload three_commits))))
     <= 3.
Proof.
  destruct (file_counters_bounded (sample_payload three_commits)
              (normalized_of (sample_payload three_commits))
              ltac:(by_run)) as (Ha & _ & _ & Hall).
  split; [exact Ha | exact Hall].
Defined.

(** ** What the lines say *)

Lemma substring_length_le (n : nat) (s : string) :
  String.length (substring 0 n s) <= n.
Proof.
  revert s. induction n as [| n IH]; intros s.
  - destruct s; simpl; lia.
  - destruct s as [| c s]; simpl; [lia |]. specialize (IH s). lia.
Qed.

Lemma substring_prefix (n : nat) (s : string) :
  starts_with (substring 0 n s) s = true.
Proof.
  revert s. induction n as [| n IH]; intros s.
  - destruct s; reflexivity.
  - destruct s as [| c s]; simpl; [reflexivity |].
    now rewrite Ascii.eqb_refl, IH.
Qed.

Lemma join_app (sep : string) (l1 l2 : list string) :
  l1 <> [] -> l2 <> [] ->
  Py.join sep (l1 ++ l2)%list = Py.join sep l1 ++ sep ++ Py.join sep l2.
Proof.
  intros H1 H2. induction l1 as [| a l1 IH]; [congruence |].
  destruct l1 as [| b l1].
  - destruct l2; [congruence | reflexivity].
  - change (a ++ sep ++ Py.join sep ((b :: l1) ++ l2)%list
            = (a ++ sep ++ Py.join sep (b :: l1)) ++ sep ++ Py.join sep l2).
    rewrite IH by discriminate. now rewrite !string_app_assoc.
Qed.

Section Lines.

Variable colors : Colors.
Variable shorten_url : string -> string.
Variable container_text : json -> string.
Variable loads : string -> Res json.

Local Abbreviation handle :=
  (handle_request colors shorten_url container_text loads).
Local Abbreviation summary_line :=
  (_make_summary_line colors shorten_url container_text).
Local Abbreviation commit_line := (_make_commit_line colors container_text).
Local Abbreviation fmt := (format_value container_text).

(** X10: a commit line that is built ends with a dash between spaces and
    the commit message as it is, after the repository, the author the
    configuration selects and the node; of a node that is a string it
    shows the first seven characters at most. *)
Theorem commit_line_shape (hook : Hook) (j : Normalized) (commit : json)
  (line : string) :
  commit_line hook j commit = Ok line ->
  exists repository name author node node7 msg,
    Py.getitem (original j) "repository" = Ok repository
    /\ Py.getitem repository "name" = Ok name
    /\ Py.getitem commit
         (if get_default (show_raw_author (config_or_empty hook)) false
          then "raw_author" else "author") = Ok author
    /\ Py.getitem commit "node" = Ok node
    /\ Py.slice_to 7 node = Ok node7
    /\ Py.getitem commit "message" = Ok (JStr msg)
    /\ line = (GREY colors ++ "[" ++ BLUE colors ++ fmt name ++ GREY colors
                 ++ "]")
              ++ " " ++ (TEAL colors ++ fmt author ++ GREY colors)
              ++ " " ++ (TEAL colors ++ fmt node7 ++ GREY colors)
              ++ " - " ++ msg
    /\ (forall n,
           node = JStr n ->
           fmt node7 = substring 0 7 n
           /\ String.length (fmt node7) <= 7
           /\ starts_with (fmt node7) n = true).
Proof.
  unfold _make_commit_line. intros H.
  bind_ok H repository Hr. bind_ok H name Hn. bind_ok H author Ha.
  bind_ok H node Hnode. bind_ok H node7 H7. bind_ok H msg Hm.
  bind_ok H msg_text Ht. inversion H; subst line; clear H.
  destruct msg as [| | | m | |]; try discriminate.
  inversion Ht; subst msg_text; clear Ht.
  exists repository, name, author, node, node7, m.
  repeat (split; [assumption |]). split; [reflexivity |].
  intros n ->. simpl in H7. inversion H7; subst node7. cbn [format_value].
  split; [reflexivity |].
  split; [apply substring_length_le | apply substring_prefix].
Qed.

(** X11: a summary line that is built says how many commits the payload
    has, followed by the word commit when there is one and by commits
    otherwise. *)
Theorem summary_line_counts_commits (hook : Hook) (j : Normalized)
  (config : Config) (t : list Event) (s : string) :
  summary_line hook j config = (t, Ok s) ->
  exists commits n before rest,
    Py.getitem (original j) "commits" = Ok commits
    /\ Py.len commits = Ok n
    /\ s = before ++ " " ++ TEAL colors ++ Py.text_of_nat n ++ GREY colors
             ++ " " ++ (if Nat.eqb n 1 then "commit" else "commits")
             ++ " " ++ rest.
Proof.
  unfold _make_summary_line. intros H.
  destruct (Py.getitem (original j) "repository") as [repository |];
    [rewrite !bind_lift_ok in H | discriminate H].
  destruct (Py.getitem repository "name") as [name |];
    [rewrite !bind_lift_ok in H | discriminate H].
  destruct (Py.getitem (original j) "commits") as [commits |] eqn:Hcommits;
    [rewrite !bind_lift_ok in H | discriminate H].
  destruct (Py.len commits) as [n |] eqn:Hlen;
    [rewrite !bind_lift_ok in H | discriminate H].
  destruct (Py.getitem (original j) "canon_url") as [cu |];
    [rewrite !bind_lift_ok in H | discriminate H].
  destruct (Py.getitem repository "absolute_url") as [au |];
    [rewrite !bind_lift_ok in H | discriminate H].
  destruct (Py.last_item commits) as [lc |];
    [rewrite !bind_lift_ok in H | discriminate H].
  destruct (Py.getitem lc "node") as [nd |];
    [rewrite !bind_lift_ok in H | discriminate H].
  inversion H; subst t s; clear H.
  set (count := TEAL colors ++ Py.text_of_nat n ++ GREY colors ++ " "
                  ++ (if Nat.eqb n 1 then "commit" else "commits")).
  set (name_item := GREY colors ++ "[" ++ BLUE colors ++ fmt name
                      ++ GREY colors ++ "]").
  set (pushed := TEAL colors ++ fmt (pusher j) ++ GREY colors ++ " pushed").
  set (to_branch := "to " ++ TEAL colors ++ fmt (branch j) ++ GREY colors).
  set (changes := "[+" ++ Py.text_of_nat (List.length (f_added (files j)))
                    ++ "/-"
                    ++ Py.text_of_nat (List.length (f_removed (files j)))
                    ++ "/" ++ PLUS_MINUS
                    ++ Py.text_of_nat (List.length (f_modified (files j)))
                    ++ "]").
  set (link_item := LIGHT_GREY colors
                      ++ shorten_url (fmt cu ++ fmt au ++ "commits/")
                      ++ GREY colors).
  assert (Hgoal : forall l1 l2,
             l1 <> [] -> l2 <> [] ->
             exists before rest,
               Py.join " " (l1 ++ count :: l2)%list
               = before ++ " " ++ TEAL colors ++ Py.text_of_nat n
                   ++ GREY colors ++ " "
                   ++ (if Nat.eqb n 1 then "commit" else "commits")
                   ++ " " ++ rest).
  { intros l1 l2 H1 H2. exists (Py.join " " l1), (Py.join " " l2).
    rewrite join_app by (assumption || discriminate).
    change (count :: l2) with ([count] ++ l2)%list.
    rewrite join_app by (assumption || discriminate).
    unfold count. cbn [Py.join]. now rewrite !string_app_assoc. }
  unfold append_item.
  destruct (Py.truthy (pusher j)),
           (get_default (show_branch config) true && Py.truthy (branch j)).
  - destruct (Hgoal [name_item; pushed] [to_branch; changes; link_item])
      as (before & rest & Heq); try discriminate.
    exists commits, n, before, rest. split; [reflexivity |].
    split; [exact Hlen | exact Heq].
  - destruct (Hgoal [name_item; pushed] [changes; link_item])
      as (before & rest & Heq); try discriminate.
    exists commits, n, before, rest. split; [reflexivity |].
    split; [exact Hlen | exact Heq].
  - destruct (Hgoal [name_item] [to_branch; changes; link_item])
      as (before & rest & Heq); try discriminate.
    exists commits, n, before, rest. split; [reflexivity |].
    split; [exact Hlen | exact Heq].
  - destruct (Hgoal [name_item] [changes; link_item])
      as (before & rest & Heq); try discriminate.
    exists commits, n, before, rest. split; [reflexivity |].
    split; [exact Hlen | exact Heq].
Qed.

(** *** The flag is all that [use_colors] changes *)

Lemma same_but_flag_bind {A B} (m m' : Eff A) (f f' : A -> Eff B) :
  same_but_flag m m' ->
  (forall a, same_but_flag (f a) (f' a)) ->
  same_but_flag (eff_bind m f) (eff_bind m' f').
Proof.
  unfold same_but_flag. intros (Hs & Hsh & Htx) Hf.
  destruct m as [t [a | e]], m' as [t' [a' | e']]; simpl in Hs, Hsh, Htx;
    try discriminate Hs.
  - inversion Hs; subst a'. specialize (Hf a). simpl.
    destruct (f a) as [u r], (f' a) as [u' r']. simpl in *.
    destruct Hf as (Hr & Hsh' & Htx').
    split; [exact Hr |].
    unfold shortened, lines_of in *.
    rewrite !flat_map_app, !map_app. split; congruence.
  - inversion Hs; subst e'. simpl. auto.
Qed.

Lemma same_but_flag_refl {A} (m : Eff A) : same_but_flag m m.
Proof. repeat split. Qed.

Lemma yield_commit_lines_flag (hook hook' : Hook) (j : Normalized)
  (flag flag' : bool) (cs : list json) :
  show_raw_author (config_or_empty hook)
  = show_raw_author (config_or_empty hook') ->
  same_but_flag
    (yield_commit_lines colors container_text hook j flag cs)
    (yield_commit_lines colors container_text hook' j flag' cs).
Proof.
  intros Hraw. induction cs as [| c cs IH]; [apply same_but_flag_refl |].
  cbn [yield_commit_lines].
  replace (commit_line hook' j c) with (commit_line hook j c)
    by (unfold _make_commit_line; now rewrite Hraw).
  apply same_but_flag_bind; [apply same_but_flag_refl | intros l].
  apply same_but_flag_bind; [repeat split | intros _; exact IH].
Qed.

(** X12: two hooks whose configurations differ in [use_colors] only yield
    lines with the same text, colour placeholders included, call the
    shortener alike and end alike: the hook strips nothing itself. *)
Theorem use_colors_changes_flag_only (p : option string)
  (bs : option string) (uc uc' sb sra : option bool) :
  let hook := mkHook (Some (mkConfig bs uc sb sra)) in
  let hook' := mkHook (Some (mkConfig bs uc' sb sra)) in
  snd (handle hook p) = snd (handle hook' p)
  /\ shortened (fst (handle hook p)) = shortened (fst (handle hook' p))
  /\ map text (lines_of (fst (handle hook p)))
     = map text (lines_of (fst (handle hook' p))).
Proof.
  intros hook hook'.
  change (same_but_flag (handle hook p) (handle hook' p)).
  unfold handle_request. destruct p as [body |]; [| apply same_but_flag_refl].
  destruct (String.eqb body ""); [apply same_but_flag_refl |].
  apply same_but_flag_bind; [apply same_but_flag_refl | intros payload].
  apply same_but_flag_bind; [apply same_but_flag_refl | intros j].
  apply same_but_flag_bind; [apply same_but_flag_refl | intros cv].
  destruct (negb (Py.truthy cv)); [apply same_but_flag_refl |].
  apply same_but_flag_bind; [apply same_but_flag_refl | intros drop].
  destruct drop; [apply same_but_flag_refl |].
  unfold render_lines.
  apply same_but_flag_bind; [apply same_but_flag_refl | intros summary].
  apply same_but_flag_bind; [repeat split | intros _].
  apply same_but_flag_bind; [apply same_but_flag_refl | intros cv'].
  apply same_but_flag_bind; [apply same_but_flag_refl | intros cs].
  now apply yield_commit_lines_flag.
Qed.

End Lines.

(** ** The further properties on concrete data *)

Lemma commit_line_shape_sample :
  exists line,
    _make_commit_line mirc no_text plain_hook
      (normalized_of (sample_payload three_commits))
      (sample_commit "dev" [] "0123456789ab") = Ok line
    /\ exists before, line = before ++ " - " ++ "fix".
Proof.
  destruct (_make_commit_line mirc no_text plain_hook
              (normalized_of (sample_payload three_commits))
              (sample_commit "dev" [] "0123456789ab")) as [line | e] eqn:E;
    [| vm_compute in E; discriminate E].
  exists line. split; [reflexivity |].
  destruct (commit_line_shape mirc no_text plain_hook _ _ line E)
    as (repository & name & author & node & node7 & msg
        & _ & _ & _ & Hnode & H7 & Hmsg & Hline & Hcut).
  vm_compute in Hnode. inversion Hnode; subst node; clear Hnode.
  vm_compute in Hmsg. inversion Hmsg; subst msg; clear Hmsg.
  exists ((GREY mirc ++ "[" ++ BLUE mirc ++ format_value no_text name
             ++ GREY mirc ++ "]")
          ++ " " ++ (TEAL mirc ++ format_value no_text author ++ GREY mirc)
          ++ " " ++ (TEAL mirc ++ format_value no_text node7 ++ GREY mirc)).
  rewrite Hline, !string_app_assoc. reflexivity.
Defined.

Lemma summary_line_counts_commits_sample :
  exists before rest,
    snd (_make_summary_line mirc same_url no_text plain_hook
           (normalized_of (sample_payload three_commits)) empty_config)
    = Ok (before ++ " " ++ TEAL mirc ++ "3" ++ GREY mirc ++ " " ++ "commits"
            ++ " " ++ rest).
Proof.
  destruct (_make_summary_line mirc same_url no_text plain_hook
              (normalized_of (sample_payload three_commits)) empty_config)
    as [t [s | e]] eqn:E; [| vm_compute in E; discriminate E].
  destruct (summary_line_counts_commits mirc same_url no_text plain_hook
              _ _ t s E) as (commits & n & before & rest & Hc & Hn & Hs).
  vm_compute in Hc. inversion Hc; subst commits; clear Hc.
  vm_compute in Hn. inversion Hn; subst n; clear Hn.
  exists before, rest. simpl. f_equal. exact Hs.
Defined.

Lemma create_salt_shape_sample :
  User._create_salt "12345678" = "MTIzNDU2"
  /\ String.length (User._create_salt "12345678") = 8.
Proof.
  split; [by_run |].
  apply (create_salt_shape "12345678"). reflexivity.
Defined.

Lemma new_key_shape_sample :
  String.length (HookRow._new_key "0123456789abcdefghijklmn") = 24
  /\ Base64.all_chars Base64.urlsafe_char
       (HookRow._new_key "0123456789abcdefghijklmn") = true.
Proof.
  destruct (new_key_shape "0123456789abcdefghijklmn" eq_refl) as (H1 & H2 & _).
  split; assumption.
Defined.

Lemma by_email_finds_registered_sample :
  (exists row,
      User.by_email sample_users "  ALICE@example.org " = Some row
      /\ In row sample_users
      /\ User.email row = "alice@example.org")
  /\ User.email_exists sample_users "  ALICE@example.org " = true.
Proof.
  apply (by_email_finds_registered sample_digest sample_users
           " Alice " "Alice@Example.ORG " "secret" "12345678"
           "  " "" "  ALICE@example.org ");
    [right; now left | reflexivity | reflexivity | reflexivity].
Defined.

Lemma login_accepts_padded_password_sample :
  User.login sample_digest sample_users "ALICE" " secret  " = Some alice.
Proof.
  apply (login_accepts_padded_password sample_digest sample_users
           "ALICE" " Alice " "Alice@Example.ORG " "secret" "12345678"
           " " "  "); reflexivity.
Defined.

Lemma set_password_accepts_new_sample :
  User.password (User.set_password sample_digest alice "changed" "abcdefgh")
  = User._hash_password sample_digest " changed "
      (User._create_salt "abcdefgh").
Proof.
  apply (set_password_accepts_new sample_digest alice "changed" "abcdefgh"
           " " " "); reflexivity.
Defined.
